(** * Face recognition core of the attendance tracker

    Shallow embedding of [attendance/utils.py] (class [FaceRecognizer]) and of
    the [FaceProfile] rows of [attendance/models.py] it loads, followed by
    the views of [attendance/views.py] that call the recognizer and keep
    the attendance table.

    Conventions of the embedding.
    - Python and NumPy floats are IEEE 754 binary floats, taken from the
      Standard Library's executable specification [SpecFloat]. The format
      of the arrays (precision and exponent range) is left open, so every
      result holds for float32 arrays (what torch returns) and for float64
      ones. Python's own floats, the literals of the source among them,
      are binary64 numbers whatever the format of the arrays.
    - [np.dot] of two 1-D arrays raises on arrays of different lengths;
      on arrays of one length it returns what the BLAS routine computes,
      an unspecified function of the two arrays ([Blas]): its order of
      summation and intermediate precision are not in the source.
    - Python compares numbers by value: [flt], [fgt] and [feq] compare the
      exact values of two floats, of one format or of two, and are false
      as soon as one side is NaN. This is how a float32 scalar of NumPy is
      compared with a Python float.
    - A function body that can raise lives in the error monad [exc]; each
      [try: ... except Exception:] of the source is a [try_except].
    - The neural networks (MTCNN, InceptionResnetV1), OpenCV and pickle are
      fields of the recognizer or variables of the section: nothing is
      assumed about what they compute.
    - The arithmetic on the arrays and on the boxes is done in the format
      of the arrays.
    - The crop of [get_face_embedding] computes on Python numbers; it is
      stated for every format, binary64 among them.
    - Calls to [logger] are not modelled. *)

From Stdlib Require Import ZArith List String Ascii Bool Lia SpecFloat QArith.
Open Scope string_scope.
Import ListNotations.
Open Scope Z_scope.

(** ** Exceptions *)

Inductive pyexn : Type :=
| ValueError
| KeyError
| UnpicklingError
| RuntimeError.

Inductive exc (A : Type) : Type :=
| Ok (a : A)
| Raise (e : pyexn).
Arguments Ok {A} a.
Arguments Raise {A} e.

Definition bind {A B : Type} (m : exc A) (k : A -> exc B) : exc B :=
  match m with
  | Ok a => k a
  | Raise e => Raise e
  end.

Notation "x <- m ;; k" := (bind m (fun x => k))
  (at level 61, m at next level, right associativity).

(** [try: body  except Exception as e: handler] *)
Definition try_except {A : Type} (body : exc A) (handler : pyexn -> A) : A :=
  match body with
  | Ok a => a
  | Raise e => handler e
  end.

(** ** Floating-point comparisons

    Python's [x < y], [x > y] and [x == y] on numbers compare their
    values, so that a float32 scalar of NumPy is compared exactly with a
    Python float or integer; a comparison with NaN is false. *)

Definition float : Type := spec_float.

(** The exact value of a float. *)
Inductive extended : Type :=
| NotANumber
| MinusInfinity
| Finite (q : Q)
| PlusInfinity.

Definition value (x : float) : extended :=
  match x with
  | S754_nan => NotANumber
  | S754_infinity true => MinusInfinity
  | S754_infinity false => PlusInfinity
  | S754_zero _ => Finite 0
  | S754_finite s m e =>
      Finite (inject_Z (cond_Zopp s (Z.pos m)) * Qpower 2 e)
  end.

Definition compare_extended (a b : extended) : option comparison :=
  match a, b with
  | NotANumber, _ | _, NotANumber => None
  | MinusInfinity, MinusInfinity => Some Eq
  | MinusInfinity, _ => Some Lt
  | _, MinusInfinity => Some Gt
  | PlusInfinity, PlusInfinity => Some Eq
  | PlusInfinity, _ => Some Gt
  | _, PlusInfinity => Some Lt
  | Finite p, Finite q => Some (Qcompare p q)
  end.

Definition fcompare (x y : float) : option comparison :=
  compare_extended (value x) (value y).

Definition flt (x y : float) : bool :=
  match fcompare x y with Some Lt => true | _ => false end.
Definition fgt (x y : float) : bool := flt y x.
Definition feq (x y : float) : bool :=
  match fcompare x y with Some Eq => true | _ => false end.

Lemma qcompare_refl (q : Q) : Qcompare q q = Eq.
Proof. apply Qeq_alt. reflexivity. Qed.

Lemma qcompare_lt_trans (p q r : Q) :
  Qcompare p q = Lt -> Qcompare q r = Lt -> Qcompare p r = Lt.
Proof. rewrite <- !Qlt_alt. apply Qlt_trans. Qed.

Lemma qcompare_eq_lt (p q r : Q) :
  Qcompare p q = Eq -> Qcompare q r = Lt -> Qcompare p r = Lt.
Proof.
  rewrite <- Qeq_alt, <- !Qlt_alt. intros Heq Hlt. rewrite Heq. exact Hlt.
Qed.

Lemma qcompare_lt_eq (p q r : Q) :
  Qcompare p q = Lt -> Qcompare q r = Eq -> Qcompare p r = Lt.
Proof.
  rewrite <- Qeq_alt, <- !Qlt_alt. intros Hlt Heq. rewrite <- Heq. exact Hlt.
Qed.

Lemma qcompare_flip (p q : Q) (c : comparison) :
  Qcompare p q = c -> Qcompare q p = CompOpp c.
Proof. intros <-. symmetry. apply Qcompare_antisym. Qed.

Lemma flt_irrefl (x : float) : flt x x = false.
Proof.
  unfold flt, fcompare. destruct (value x) as [| |q|]; cbn; try reflexivity.
  rewrite qcompare_refl. reflexivity.
Qed.

Lemma flt_trans (x y z : float) :
  flt x y = true -> flt y z = true -> flt x z = true.
Proof.
  unfold flt, fcompare.
  destruct (value x) as [| |p|], (value y) as [| |q|], (value z) as [| |r|];
    cbn; try discriminate; try reflexivity.
  destruct (Qcompare p q) eqn:Hpq; try discriminate.
  destruct (Qcompare q r) eqn:Hqr; try discriminate.
  rewrite (qcompare_lt_trans p q r Hpq Hqr). reflexivity.
Qed.

Lemma feq_flt_r (t x y : float) :
  feq x y = true -> flt t x = true -> flt t y = true.
Proof.
  unfold feq, flt, fcompare.
  destruct (value t) as [| |p|], (value x) as [| |q|], (value y) as [| |r|];
    cbn; try discriminate; try reflexivity.
  destruct (Qcompare q r) eqn:Hqr; try discriminate.
  destruct (Qcompare p q) eqn:Hpq; try discriminate.
  rewrite (qcompare_lt_eq p q r Hpq Hqr). reflexivity.
Qed.

Lemma feq_not_fgt (x y : float) : feq x y = true -> fgt x y = false.
Proof.
  unfold feq, fgt, flt, fcompare.
  destruct (value x) as [| |p|], (value y) as [| |q|];
    cbn; try discriminate; try reflexivity.
  destruct (Qcompare p q) eqn:Hpq; try discriminate.
  rewrite (qcompare_flip p q Eq Hpq). reflexivity.
Qed.

Lemma feq_flt_l (x y z : float) :
  feq x y = true -> flt y z = true -> flt x z = true.
Proof.
  unfold feq, flt, fcompare.
  destruct (value x) as [| |p|], (value y) as [| |q|], (value z) as [| |r|];
    cbn; try discriminate; try reflexivity.
  destruct (Qcompare p q) eqn:Hpq; try discriminate.
  destruct (Qcompare q r) eqn:Hqr; try discriminate.
  rewrite (qcompare_eq_lt p q r Hpq Hqr). reflexivity.
Qed.

(** ** Data model *)

(** A 1-D array of floats: a face embedding. *)
Definition embedding : Type := list float.

(** A detection box, the row [x1, y1, x2, y2] of the detector's output. *)
Record box : Type := Box { x1 : float; y1 : float; x2 : float; y2 : float }.

(** A decoded colour image: [shape0] rows, [shape1] columns, 3 channels. *)
Record image : Type := Image { shape0 : Z; shape1 : Z; pixels : list Z }.

Definition size (img : image) : Z := shape0 img * shape1 img * 3.

(** A frame is an image or Python's [None]. *)
Definition frame : Type := option image.

(** The dict returned by [process_frame]; an absent key is [None]. *)
Record verdict : Type := Verdict {
  is_valid : bool;
  error : option string;
  face_location : option box;
  face_count : option Z
}.

(** A value of [known_faces]: [{'encoding': ..., 'user_id': ...}]. *)
Record face_data : Type := FaceData { encoding : embedding; entry_user_id : Z }.

(** A Python dict keyed by user id, in insertion order. *)
Definition dict : Type := list (Z * face_data).

Fixpoint dict_get (d : dict) (k : Z) : option face_data :=
  match d with
  | [] => None
  | (k', v) :: rest => if k' =? k then Some v else dict_get rest k
  end.

(** [k in d] *)
Definition dict_mem (d : dict) (k : Z) : bool :=
  match dict_get d k with Some _ => true | None => false end.

(** [d[k] = v]: an existing key keeps its place, a new one goes last. *)
Fixpoint dict_set (d : dict) (k : Z) (v : face_data) : dict :=
  match d with
  | [] => [(k, v)]
  | (k', v') :: rest =>
      if k' =? k then (k, v) :: rest else (k', v') :: dict_set rest k v
  end.

Definition bytes : Type := list Byte.byte.

(** A row of the [FaceProfile] table, with the columns the loader can see. *)
Record FaceProfile : Type := Profile {
  user_id : Z;
  face_encoding : option bytes;
  is_active : bool
}.

(** Truth value of a nullable [BinaryField]: [None] and [b''] are false. *)
Definition truthy (b : option bytes) : bool :=
  match b with
  | None | Some [] => false
  | Some (_ :: _) => true
  end.

(** [django.conf.settings], as far as the recognizer reads it. *)
Record Settings : Type := { FACE_RECOGNITION_TOLERANCE : option float }.

(** The recognizer object: the two networks and the enrollment index.
    [mtcnn] stands for [cv2.cvtColor] followed by [self.mtcnn.detect]: the
    boxes zipped with their probabilities, or [None].
    [resnet] stands for lines 68-90 of [get_face_embedding]: crop, resize,
    forward pass and flatten, [None] when the crop is empty. *)
Record FaceRecognizer : Type := Recognizer {
  mtcnn : image -> exc (option (list (box * float)));
  resnet : image -> box -> exc (option embedding);
  known_faces : dict
}.

Definition set_known_faces (self : FaceRecognizer) (d : dict) : FaceRecognizer :=
  {| mtcnn := mtcnn self; resnet := resnet self; known_faces := d |}.

Definition set_mtcnn (self : FaceRecognizer)
    (detector : image -> exc (option (list (box * float)))) : FaceRecognizer :=
  {| mtcnn := detector; resnet := resnet self; known_faces := known_faces self |}.

Definition rejected (msg : string) : verdict :=
  {| is_valid := false; error := Some msg;
     face_location := None; face_count := None |}.

(** The float format: precision and exponent bound of [SpecFloat]. *)
Class FloatFormat : Type := { prec : Z; emax : Z }.

(** Python's [float] and NumPy's [float64]. *)
Definition binary64 : FloatFormat := {| prec := 53; emax := 1024 |}.

(** NumPy's [float32]. *)
Definition binary32 : FloatFormat := {| prec := 24; emax := 128 |}.

(** What the BLAS routine behind [np.dot] returns for two 1-D arrays of
    one length. *)
Class Blas : Type := { blas_dot : embedding -> embedding -> float }.

Section Arithmetic.

Context {fmt : FloatFormat}.

Definition of_int (n : Z) : float := binary_normalize prec emax n 0 false.
Definition fadd : float -> float -> float := SFadd prec emax.
Definition fsub : float -> float -> float := SFsub prec emax.
Definition fmul : float -> float -> float := SFmul prec emax.
Definition fdiv : float -> float -> float := SFdiv prec emax.
Definition fsqrt : float -> float := SFsqrt prec emax.

End Arithmetic.

(** *** Python's own floats

    A float literal of the source and the product of an [int] by such a
    literal are binary64 numbers, whatever the format of the arrays. The
    literals [0.8], [0.95] and [0.2] are the binary64 numbers nearest to
    4/5, 19/20 and 1/5, which is what a correctly rounded division
    returns. *)
Definition python_0_8 : float :=
  fdiv (fmt := binary64) (of_int (fmt := binary64) 4)
       (of_int (fmt := binary64) 5).
Definition lit_0_95 : float :=
  fdiv (fmt := binary64) (of_int (fmt := binary64) 19)
       (of_int (fmt := binary64) 20).
Definition lit_0_2 : float :=
  fdiv (fmt := binary64) (of_int (fmt := binary64) 1)
       (of_int (fmt := binary64) 5).

(** [n * x] for an [int] [n] and a Python float [x] *)
Definition int_times (n : Z) (x : float) : float :=
  fmul (fmt := binary64) (of_int (fmt := binary64) n) x.

Section Recognition.

Context {fmt : FloatFormat} {blas : Blas}.

(** [pickle.loads] *)
Variable pickle_loads : bytes -> exc embedding.

(** *** NumPy *)

(** [np.dot(a, b)] on 1-D arrays *)
Definition np_dot (a b : embedding) : exc float :=
  if (List.length a =? List.length b)%nat then Ok (blas_dot a b)
  else Raise ValueError.

(** The sum of the products taken from left to right: one kernel among
    those a BLAS may use. *)
Fixpoint dot_seq (acc : float) (a b : embedding) : float :=
  match a, b with
  | x :: a', y :: b' => dot_seq (fadd acc (fmul x y)) a' b'
  | _, _ => acc
  end.

(** [np.linalg.norm(a)] on a 1-D array: [sqrt(a.dot(a))] *)
Definition np_linalg_norm (a : embedding) : exc float :=
  s <- np_dot a a ;; Ok (fsqrt s).

(** *** [FaceRecognizer.load_known_faces] *)

Fixpoint load_profiles (profiles : list FaceProfile) (faces : dict)
  : exc dict :=
  match profiles with
  | [] => Ok faces
  | profile :: rest =>
      if truthy (face_encoding profile) then
        e <- pickle_loads (match face_encoding profile with
                           | Some b => b
                           | None => []
                           end) ;;
        load_profiles rest
          (dict_set faces (user_id profile)
             {| encoding := e; entry_user_id := user_id profile |})
      else load_profiles rest faces
  end.

(** [objects_all] is the result of [FaceProfile.objects.all()]. *)
Definition load_known_faces (self : FaceRecognizer)
    (objects_all : list FaceProfile) : FaceRecognizer :=
  try_except
    (faces <- load_profiles objects_all [] ;;
     Ok (set_known_faces self faces))
    (fun _ => set_known_faces self []).

(** *** [FaceRecognizer.detect_faces] *)

Definition frame_empty (f : frame) : bool :=
  match f with
  | None => true
  | Some img => size img =? 0
  end.

Definition detect_faces (self : FaceRecognizer) (f : frame) : list box :=
  try_except
    (match f with
     | None => Ok []
     | Some img =>
         if size img =? 0 then Ok []
         else
           r <- mtcnn self img ;;
           match r with
           | Some boxes_probs =>
               Ok (map fst
                     (filter (fun bp => fgt (snd bp) lit_0_95) boxes_probs))
           | None => Ok []
           end
     end)
    (fun _ => []).

(** *** [FaceRecognizer.get_face_embedding] *)

Definition get_face_embedding (self : FaceRecognizer) (f : frame) (b : box)
  : option embedding :=
  try_except
    (match f with
     | None => Ok None
     | Some img =>
         if size img =? 0 then Ok None
         else
           r <- resnet self img b ;;
           match r with
           | None => Ok None
           | Some raw =>
               n <- np_linalg_norm raw ;;
               Ok (Some (map (fun x => fdiv x n) raw))
           end
     end)
    (fun _ => None).

(** *** [FaceRecognizer.process_frame] *)

Definition area (b : box) : float :=
  fmul (fsub (x2 b) (x1 b)) (fsub (y2 b) (y1 b)).

(** [max(boxes, key=...)]: the first box of largest key. *)
Definition py_max (key : box -> float) (boxes : list box) : exc box :=
  match boxes with
  | [] => Raise ValueError
  | b :: rest =>
      Ok (fold_left
            (fun best x => if fgt (key x) (key best) then x else best)
            rest b)
  end.

Definition process_frame (self : FaceRecognizer) (f : frame) : verdict :=
  try_except
    (match f with
     | None => Ok (rejected "Empty image received")
     | Some img =>
         if size img =? 0 then Ok (rejected "Empty image received")
         else
           let boxes := detect_faces self f in
           if (List.length boxes =? 0)%nat then
             Ok (rejected "No faces detected. Please ensure your face is visible and well-lit")
           else if (1 <? List.length boxes)%nat then
             Ok (rejected "Multiple faces detected. Please ensure only your face is in the frame")
           else
             main_box <- py_max area boxes ;;
             let face_height := fsub (y2 main_box) (y1 main_box) in
             let face_width := fsub (x2 main_box) (x1 main_box) in
             if flt face_height (int_times (shape0 img) lit_0_2) then
               Ok (rejected "Please move closer to the camera")
             else if flt face_width (int_times (shape1 img) lit_0_2) then
               Ok (rejected "Please center your face in the frame")
             else
               Ok {| is_valid := true; error := None;
                     face_location := Some main_box;
                     face_count := Some (Z.of_nat (List.length boxes)) |}
     end)
    (fun _ => rejected "Error processing image").

(** *** [FaceRecognizer.identify_user] *)

(** The loop over [self.known_faces.items()]. *)
Fixpoint compare_known (query : embedding) (items : dict)
    (best_match : option Z) (best_similarity : float)
  : exc (option Z * float) :=
  match items with
  | [] => Ok (best_match, best_similarity)
  | (uid, data) :: rest =>
      similarity <- np_dot query (encoding data) ;;
      if fgt similarity best_similarity
      then compare_known query rest (Some uid) similarity
      else compare_known query rest best_match best_similarity
  end.

(** [getattr(settings, 'FACE_RECOGNITION_TOLERANCE', 0.8)] *)
Definition threshold (settings : Settings) : float :=
  match FACE_RECOGNITION_TOLERANCE settings with
  | Some t => t
  | None => python_0_8
  end.

Definition identify_user (self : FaceRecognizer) (settings : Settings)
    (f : frame) (location : option box) : option Z :=
  try_except
    (match known_faces self with
     | [] => Ok None
     | _ :: _ =>
         let matching (loc : box) : exc (option Z) :=
           match get_face_embedding self f loc with
           | None => Ok None
           | Some query =>
               r <- compare_known query (known_faces self)
                      None (of_int (-1)) ;;
               let '(best_match, best_similarity) := r in
               if fgt best_similarity (threshold settings)
               then Ok best_match
               else Ok None
           end in
         match location with
         | Some loc => matching loc
         | None =>
             let result := process_frame self f in
             if negb (is_valid result) then Ok None
             else match face_location result with
                  | Some loc => matching loc
                  | None => Raise KeyError
                  end
         end
     end)
    (fun _ => None).

(** *** [FaceRecognizer.verify_user_face] *)

Definition verify_user_face (self : FaceRecognizer) (settings : Settings)
    (uid : Z) (f : frame) (location : option box) : bool :=
  try_except
    (if negb (dict_mem (known_faces self) uid) then Ok false
     else
       let matching (loc : box) : exc bool :=
         match get_face_embedding self f loc with
         | None => Ok false
         | Some query =>
             match dict_get (known_faces self) uid with
             | None => Raise KeyError
             | Some data =>
                 similarity <- np_dot query (encoding data) ;;
                 Ok (fgt similarity (threshold settings))
             end
         end in
       match location with
       | Some loc => matching loc
       | None =>
           let result := process_frame self f in
           if negb (is_valid result) then Ok false
           else match face_location result with
                | Some loc => matching loc
                | None => Raise KeyError
                end
       end)
    (fun _ => false).

End Recognition.

(** The BLAS that sums from left to right in the format of the arrays. *)
Definition sequential {fmt : FloatFormat} : Blas :=
  {| blas_dot := dot_seq (S754_zero false) |}.

(** ** Notions used by the statements *)

Section Notions.

Context {fmt : FloatFormat} {blas : Blas}.

(** The embedding that [identify_user] and [verify_user_face] go on to
    compare (lines 139-147 and 178-186): taken at the supplied location,
    or at the one [process_frame] accepts. *)
Definition located_embedding (self : FaceRecognizer) (f : frame)
    (location : option box) : exc (option embedding) :=
  match location with
  | Some loc => Ok (get_face_embedding self f loc)
  | None =>
      let result := process_frame self f in
      if negb (is_valid result) then Ok None
      else match face_location result with
           | Some loc => Ok (get_face_embedding self f loc)
           | None => Raise KeyError
           end
  end.

(** [s] is attained on the index and no entry is more similar. *)
Definition attained (query : embedding) (faces : dict) (s : float) : Prop :=
  exists uid data, In (uid, data) faces /\ np_dot query (encoding data) = Ok s.

Definition unsurpassed (query : embedding) (faces : dict) (s : float)
  : Prop :=
  forall uid data s',
    In (uid, data) faces -> np_dot query (encoding data) = Ok s' ->
    fgt s' s = false.

Definition max_similarity (query : embedding) (faces : dict) (s : float)
  : Prop :=
  attained query faces s /\ unsurpassed query faces s.

(** The single box fails the height, respectively the width, check. *)
Definition too_short (img : image) (b : box) : bool :=
  flt (fsub (y2 b) (y1 b)) (int_times (shape0 img) lit_0_2).

Definition too_narrow (img : image) (b : box) : bool :=
  flt (fsub (x2 b) (x1 b)) (int_times (shape1 img) lit_0_2).

Definition accepted (b : box) : verdict :=
  {| is_valid := true; error := None;
     face_location := Some b; face_count := Some 1 |}.

(** The answer of [identify_user] once the embedding is there, or is
    missing (lines 146-167). *)
Definition match_identity (self : FaceRecognizer) (settings : Settings)
    (q : option embedding) : option Z :=
  try_except
    (match known_faces self with
     | [] => Ok None
     | _ :: _ =>
         match q with
         | None => Ok None
         | Some query =>
             r <- compare_known query (known_faces self) None (of_int (-1)) ;;
             if fgt (snd r) (threshold settings) then Ok (fst r) else Ok None
         end
     end)
    (fun _ => None).

(** The answer of [verify_user_face] once the embedding is there, or is
    missing (lines 185-194). *)
Definition match_claim (self : FaceRecognizer) (settings : Settings)
    (uid : Z) (q : option embedding) : bool :=
  try_except
    (match dict_get (known_faces self) uid with
     | None => Ok false
     | Some data =>
         match q with
         | None => Ok false
         | Some query =>
             similarity <- np_dot query (encoding data) ;;
             Ok (fgt similarity (threshold settings))
         end
     end)
    (fun _ => false).

(** The threshold in force is [t]: the configured one, or the Python
    float 0.8 when none is configured. *)
Definition tolerance_is (settings : Settings) (t : float) : Prop :=
  FACE_RECOGNITION_TOLERANCE settings = Some t
  \/ (FACE_RECOGNITION_TOLERANCE settings = None /\ t = python_0_8).

(** A stored descriptor the loop would unpickle. *)
Definition stored (p : FaceProfile) (b : bytes) : Prop :=
  face_encoding p = Some b /\ truthy (face_encoding p) = true.

End Notions.

(** ** Further notions *)

(** The keys of a dict are pairwise distinct, as in every Python dict. *)
Definition unique_keys (d : dict) : Prop := NoDup (map fst d).

(** Every value of the index records the key it is stored under. *)
Definition keyed_by_user (d : dict) : Prop :=
  forall k data, In (k, data) d -> entry_user_id data = k.

Definition is_nan (x : float) : bool :=
  match x with
  | S754_nan => true
  | _ => false
  end.

(** ** The crop of [get_face_embedding] (lines 68-79)

    The part of [get_face_embedding] that the field [resnet] stands for,
    down to the call of the network: the box is cut out of the frame with
    a padding of a tenth of its width. *)

(** The crop window [frame[top:bottom, left:right]]. *)
Record window : Type := Window {
  left : Z;
  top : Z;
  right : Z;
  bottom : Z
}.

(** Length of the slice [a[start:stop]] of an axis of length [len]. *)
Definition slice_bound (len i : Z) : Z :=
  if i <? 0 then Z.max 0 (i + len) else Z.min i len.

Definition slice_len (len start stop : Z) : Z :=
  Z.max 0 (slice_bound len stop - slice_bound len start).

Section Crop.

Context {fmt : FloatFormat} {blas : Blas}.

(** [int(x)]: truncation towards zero; NaN and the infinities raise
    ([RuntimeError] stands for Python's [OverflowError]; the handler of
    [get_face_embedding] treats all exceptions alike). *)
Definition py_int (x : float) : exc Z :=
  match x with
  | S754_zero _ => Ok 0
  | S754_finite s m e =>
      let magnitude :=
        match e with
        | Z0 => Z.pos m
        | Z.pos p => Z.shiftl (Z.pos m) (Z.pos p)
        | Z.neg p => Z.shiftr (Z.pos m) (Z.pos p)
        end in
      Ok (if s then - magnitude else magnitude)
  | S754_infinity _ => Raise RuntimeError
  | S754_nan => Raise ValueError
  end.

(** The conversion of an [int] operand of a float product; an integer
    beyond the largest float raises. *)
Definition float_of_int (n : Z) : exc float :=
  match of_int n with
  | S754_infinity _ => Raise RuntimeError
  | x => Ok x
  end.

(** The literal [0.1]. *)
Definition lit_0_1 : float := fdiv (of_int 1) (of_int 10).

(** Lines 68-75 *)
Definition crop_window (img : image) (b : box) : exc window :=
  a1 <- py_int (x1 b) ;;
  b1 <- py_int (y1 b) ;;
  a2 <- py_int (x2 b) ;;
  b2 <- py_int (y2 b) ;;
  width <- float_of_int (a2 - a1) ;;
  padding <- py_int (fmul width lit_0_1) ;;
  Ok {| left := Z.max 0 (a1 - padding);
        top := Z.max 0 (b1 - padding);
        right := Z.min (shape1 img) (a2 + padding);
        bottom := Z.min (shape0 img) (b2 + padding) |}.

(** [face.size] for [face = frame[top:bottom, left:right]] *)
Definition crop_size (img : image) (w : window) : Z :=
  slice_len (shape0 img) (top w) (bottom w)
  * slice_len (shape1 img) (left w) (right w) * 3.

(** Lines 68-90, with [net] for lines 82-90: resize, colour conversion,
    forward pass and flatten of the crop. It has the type of the field
    [resnet]. *)
Definition embed_crop (net : image -> window -> exc embedding)
    (img : image) (b : box) : exc (option embedding) :=
  w <- crop_window img b ;;
  if crop_size img w =? 0 then Ok None
  else e <- net img w ;; Ok (Some e).

(** The sign bit is clear, or the float is NaN. *)
Definition not_negative (x : float) : Prop :=
  match x with
  | S754_nan => True
  | S754_zero s | S754_infinity s | S754_finite s _ _ => s = false
  end.

(** Neither NaN nor an infinity. *)
Definition is_finite (x : float) : bool :=
  match x with
  | S754_nan | S754_infinity _ => false
  | S754_zero _ | S754_finite _ _ _ => true
  end.

End Crop.

(** ** The models read by the views ([attendance/models.py]) *)

Module Models.

(** [datetime.time], naive. *)
Record time : Type := Time {
  hour : Z;
  minute : Z;
  second : Z;
  microsecond : Z
}.

(** Comparison of two times: that of the tuples
    [(hour, minute, second, microsecond)]. *)
Definition time_compare (a b : time) : comparison :=
  match hour a ?= hour b with
  | Eq =>
      match minute a ?= minute b with
      | Eq =>
          match second a ?= second b with
          | Eq => microsecond a ?= microsecond b
          | c => c
          end
      | c => c
      end
  | c => c
  end.

(** [a <= b] and [a < b] *)
Definition time_leb (a b : time) : bool :=
  match time_compare a b with Gt => false | _ => true end.

Definition time_ltb (a b : time) : bool :=
  match time_compare a b with Lt => true | _ => false end.

(** The fields of [User] that the embedded code reads; [face_profile] is
    the reverse accessor of the one-to-one relation, absent when the user
    has no row in [FaceProfile]. *)
Record User : Type := {
  id : Z;
  position : string;
  is_authenticated : bool;
  face_profile : option FaceProfile
}.

(** [User.is_admin] *)
Definition is_admin (self : User) : bool :=
  existsb (String.eqb (position self)) ["ADMIN"; "DIRECTOR"].

(** [User.is_hod] *)
Definition is_hod (self : User) : bool := String.eqb (position self) "HOD".

(** A row of [Attendance]; [date] is the proleptic ordinal of the day. *)
Record Attendance : Type := {
  user : Z;
  date : Z;
  time_in : time;
  time_out : option time;
  status : string;
  method : string
}.

End Models.

(** ** The callers ([attendance/views.py]) *)

Module Views.

Import Models.

(** What the views read of a request; [user] is [request.user.id]. *)
Record HttpRequest : Type := {
  http_method : string;
  request_user : Z;
  POST_action : option string;
  GET_action : option string;
  HTTP_X_FORWARDED_FOR : option string;
  REMOTE_ADDR : option string;
  FILES_face_image : option bytes;
  has_session : bool
}.

(** A message of [django.contrib.messages]. *)
Record flash : Type := { level : string; text : string }.

(** [s.split(',')[0]] *)
Fixpoint before_comma (s : string) : string :=
  match s with
  | EmptyString => EmptyString
  | String c rest =>
      if Ascii.eqb c "," then EmptyString else String c (before_comma rest)
  end.

(** [get_client_ip] *)
Definition get_client_ip (request : HttpRequest) : option string :=
  match HTTP_X_FORWARDED_FOR request with
  | Some (String c rest) => Some (before_comma (String c rest))
  | _ => REMOTE_ADDR request
  end.

(** [determine_attendance_status]; the cutoff is
    [datetime.strptime('09:30', '%H:%M').time()]. *)
Definition determine_attendance_status (current_time : time) : string :=
  let cutoff_time :=
    {| hour := 9; minute := 30; second := 0; microsecond := 0 |} in
  if time_leb current_time cutoff_time then "PRESENT" else "LATE".

(** [is_admin_user] *)
Definition is_admin_user (u : User) : bool :=
  is_authenticated u && String.eqb (position u) "ADMIN".

(** *** The attendance table *)

Definition same_day (u d : Z) (r : Attendance) : bool :=
  (user r =? u) && (date r =? d).

(** [Attendance.objects.filter(user=u, date=d).first()] under the model's
    ordering [['-date', '-time_in']]: the matching row of greatest
    [time_in], with its position in the table; among rows of equal
    [time_in] the one met first stands for the database's choice. *)
Fixpoint first_from (i : nat) (rows : list Attendance) (u d : Z)
    (best : option (nat * Attendance)) : option (nat * Attendance) :=
  match rows with
  | [] => best
  | r :: rest =>
      if same_day u d r then
        match best with
        | Some (_, b) =>
            if time_ltb (time_in b) (time_in r)
            then first_from (S i) rest u d (Some (i, r))
            else first_from (S i) rest u d best
        | None => first_from (S i) rest u d (Some (i, r))
        end
      else first_from (S i) rest u d best
  end.

Definition first_today (table : list Attendance) (u d : Z)
  : option (nat * Attendance) :=
  first_from 0 table u d None.

(** [row.time_out = t; row.save()] for the row at position [i]. *)
Fixpoint set_time_out (table : list Attendance) (i : nat) (t : time)
  : list Attendance :=
  match table, i with
  | [], _ => []
  | r :: rest, O =>
      {| user := user r; date := date r; time_in := time_in r;
         time_out := Some t; status := status r; method := method r |}
      :: rest
  | r :: rest, S i' => r :: set_time_out rest i' t
  end.

(** *** [strftime('%I:%M %p')] *)

Definition digit (d : Z) : string :=
  String (ascii_of_N (Z.to_N (48 + d))) EmptyString.

Definition two_digits (n : Z) : string := digit (n / 10) ++ digit (n mod 10).

Definition strftime_I_M_p (t : time) : string :=
  two_digits (if hour t mod 12 =? 0 then 12 else hour t mod 12)
  ++ ":" ++ two_digits (minute t) ++ " "
  ++ (if hour t <? 12 then "AM" else "PM").

(** *** [process_attendance]

    [today] and [current_time] are the two readings of [timezone.now()],
    [ai_message] is what [get_ai_message] returns; the result is the table
    and the messages queued, every path ending in
    [redirect('dashboard')]. *)
Definition process_attendance (table : list Attendance)
    (request : HttpRequest) (today : Z) (current_time : time)
    (ai_message : string) : list Attendance * list flash :=
  if String.eqb (http_method request) "POST" then
    let action :=
      match POST_action request with Some a => a | None => "mark_in" end in
    if String.eqb action "mark_out" then
      match first_today table (request_user request) today with
      | None =>
          (table,
           [{| level := "error";
               text := "No mark-in record found for today." |}])
      | Some (i, today_attendance) =>
          match time_out today_attendance with
          | Some _ =>
              (table,
               [{| level := "warning";
                   text := "You have already marked out for today." |}])
          | None =>
              (set_time_out table i current_time,
               [{| level := "success";
                   text := "Successfully marked out at "
                           ++ strftime_I_M_p current_time ++ ". "
                           ++ ai_message |}])
          end
      end
    else if String.eqb action "mark_in" then
      match first_today table (request_user request) today with
      | Some (_, today_attendance) =>
          match time_out today_attendance with
          | None =>
              (table,
               [{| level := "warning";
                   text := "You have already marked in today." |}])
          | Some _ =>
              (table,
               [{| level := "warning";
                   text := "You have already completed attendance for today." |}])
          end
      | None =>
          ((table ++
            [{| user := request_user request; date := today;
                time_in := current_time; time_out := None;
                status := determine_attendance_status current_time;
                method := "FACE" |}])%list,
           [{| level := "success";
               text := "Successfully marked in at "
                       ++ strftime_I_M_p current_time ++ ". "
                       ++ ai_message |}])
      end
    else (table, [])
  else (table, []).

(** *** [mark_attendance] *)

Inductive page : Type :=
| Redirect (to : string) (message : flash)
| Render (template : string) (is_marking_in : bool)
         (today_attendance : option Attendance) (action : string).

Definition mark_attendance (table : list Attendance)
    (request : HttpRequest) (today : Z) : page :=
  let action :=
    match GET_action request with Some a => a | None => "mark_in" end in
  let today_attendance :=
    option_map snd (first_today table (request_user request) today) in
  if String.eqb action "mark_out" then
    match today_attendance with
    | None =>
        Redirect "dashboard"
          {| level := "warning";
             text := "You need to mark in before you can mark out." |}
    | Some a =>
        match time_out a with
        | Some _ =>
            Redirect "dashboard"
              {| level := "warning";
                 text := "You have already marked out for today. You can mark in again tomorrow." |}
        | None => Render "attendance/mark.html" false (Some a) "mark_out"
        end
    end
  else
    match today_attendance with
    | Some a =>
        match time_out a with
        | Some _ =>
            Redirect "dashboard"
              {| level := "warning";
                 text := "You have already completed your attendance for today. Please come back tomorrow." |}
        | None =>
            Redirect "dashboard"
              {| level := "info";
                 text := "You have already marked in today. Please mark out when leaving." |}
        end
    | None => Render "attendance/mark.html" true None "mark_in"
    end.

(** *** [verify_user_face] of the views

    [now] is the reading of [timezone.now()]; the second component is the
    value written to [face_profile.last_used], if any. The save is taken
    to succeed. *)
Section Verification.

Context {fmt : FloatFormat} {blas : Blas}.
Variable pickle_loads : bytes -> exc embedding.

Definition verify_user_face (face_recognizer : FaceRecognizer)
    (settings : Settings) (now : Z) (u : User) (f : frame)
  : bool * option Z :=
  try_except
    (match face_profile u with
     | None => Ok (false, None)
     | Some profile =>
         if negb (truthy (face_encoding profile)) then Ok (false, None)
         else
           let result := process_frame face_recognizer f in
           if negb (is_valid result) then Ok (false, None)
           else if (match face_count result with Some n => n | None => 0 end)
                   >? 1
           then Ok (false, None)
           else
             loc <- match face_location result with
                    | Some loc => Ok loc
                    | None => Raise KeyError
                    end ;;
             match get_face_embedding face_recognizer f loc with
             | None => Ok (false, None)
             | Some query =>
                 stored_encoding <-
                   pickle_loads (match face_encoding profile with
                                 | Some b => b
                                 | None => []
                                 end) ;;
                 similarity <- np_dot query stored_encoding ;;
                 if fgt similarity (threshold settings)
                 then Ok (true, Some now)
                 else Ok (false, None)
             end
     end)
    (fun _ => (false, None)).

End Verification.

(** *** [verify_face_login]

    [imdecode] stands for [cv2.imdecode(np.frombuffer(...))], which may
    raise; [now], [today] and [now_time] are the readings of
    [timezone.now()]; [ai_message] is what [get_ai_message] returns.
    The second component lists what the view has written when it
    answers. [login(request, user)] raises when the request carries no
    session; the other database calls are taken to succeed. *)

Record JsonResponse : Type := {
  success : bool;
  http_status : Z;
  json_error : option string;
  redirect_url : option string;
  attendance_marked : option bool;
  message : option string
}.

Definition failure (code : Z) (msg : string) : JsonResponse :=
  {| success := false; http_status := code; json_error := Some msg;
     redirect_url := None; attendance_marked := None; message := None |}.

Record Effects : Type := {
  table : list Attendance;
  logged_in : option Z;
  last_login_ip : option string;
  last_used : option Z;
  session_action : option string
}.

Definition untouched (rows : list Attendance) : Effects :=
  {| table := rows; logged_in := None; last_login_ip := None;
     last_used := None; session_action := None |}.

Section FaceLogin.

Context {fmt : FloatFormat} {blas : Blas}.

(** Lines 214-240: from the image to the user, or to the response that
    ends the request; nothing is written yet. *)
Definition recognise (face_recognizer : FaceRecognizer)
    (settings : Settings) (imdecode : bytes -> exc frame)
    (users : list User) (img_data : bytes) : exc (JsonResponse + User) :=
  f <- imdecode img_data ;;
  match f with
  | None => Ok (inl (failure 400 "Invalid image format"))
  | Some _ =>
      let result := process_frame face_recognizer f in
      if negb (is_valid result) then
        Ok (inl (failure 400
                   (match error result with
                    | Some msg => msg
                    | None => "Face detection failed"
                    end)))
      else if (match face_count result with Some n => n | None => 0 end)
              >? 1
      then
        Ok (inl (failure 400
                   "Multiple faces detected. Please ensure only your face is in the frame"))
      else
        loc <- match face_location result with
               | Some loc => Ok loc
               | None => Raise KeyError
               end ;;
        match identify_user face_recognizer settings f (Some loc) with
        | None | Some 0 =>
            Ok (inl (failure 400
                       "Face not recognized. Please register or use email login."))
        | Some uid =>
            match find (fun u => id u =? uid) users with
            | None => Ok (inl (failure 400 "User not found"))
            | Some u => Ok (inr u)
            end
        end
  end.

Definition verify_face_login (face_recognizer : FaceRecognizer)
    (settings : Settings) (imdecode : bytes -> exc frame)
    (users : list User)
    (rows : list Attendance) (request : HttpRequest)
    (now today : Z) (now_time : time) (ai_message : string)
  : JsonResponse * Effects :=
  if negb (String.eqb (http_method request) "POST") then
    (failure 405 "Method not allowed", untouched rows)
  else
    match FILES_face_image request with
    | None => (failure 400 "No image provided", untouched rows)
    | Some img_data =>
        match recognise face_recognizer settings imdecode users img_data
        with
        | Raise _ =>
            (failure 500 "An error occurred. Please try again.",
             untouched rows)
        | Ok (inl response) => (response, untouched rows)
        | Ok (inr u) =>
            (* lines 243-245: face_profile.last_used is saved first *)
            let used :=
              match face_profile u with
              | Some _ => Some now
              | None => None
              end in
            if negb (has_session request) then
              (* line 248: login raises, the handler answers *)
              (failure 500 "An error occurred. Please try again.",
               {| table := rows; logged_in := None; last_login_ip := None;
                  last_used := used; session_action := None |})
            else
              let existing := first_today rows (id u) today in
              let created :=
                match existing with
                | None => true
                | Some _ => false
                end in
              ({| success := true; http_status := 200;
                  json_error := None;
                  redirect_url := Some "dashboard";
                  attendance_marked := Some created;
                  message := Some (if created then ai_message else "") |},
               {| table :=
                    if created then
                      (rows ++
                       [{| user := id u; date := today;
                           time_in := now_time; time_out := None;
                           status := determine_attendance_status now_time;
                           method := "FACE" |}])%list
                    else rows;
                  logged_in := Some (id u);
                  last_login_ip := get_client_ip request;
                  last_used := used;
                  session_action :=
                    if created && has_session request
                    then Some "mark_in" else None |})
        end
    end.

End FaceLogin.

End Views.

(** ** Notions for the attendance table *)

(** At most one row per user and day: the model's [unique_together]. *)
Definition one_per_day (table : list Models.Attendance) : Prop :=
  NoDup (map (fun r => (Models.user r, Models.date r)) table).

(** A row and its later state: nothing changes but a [time_out] that was
    still open. *)
Definition row_kept (r r' : Models.Attendance) : Prop :=
  Models.user r' = Models.user r /\ Models.date r' = Models.date r
  /\ Models.time_in r' = Models.time_in r
  /\ Models.status r' = Models.status r
  /\ Models.method r' = Models.method r
  /\ (forall t, Models.time_out r = Some t -> Models.time_out r' = Some t).

(** A time of day in range, and its microseconds since midnight. *)
Definition time_valid (t : Models.time) : Prop :=
  0 <= Models.hour t < 24 /\ 0 <= Models.minute t < 60
  /\ 0 <= Models.second t < 60 /\ 0 <= Models.microsecond t < 1000000.

Definition micros (t : Models.time) : Z :=
  ((Models.hour t * 60 + Models.minute t) * 60 + Models.second t) * 1000000
  + Models.microsecond t.

Fixpoint has_comma (s : string) : bool :=
  match s with
  | EmptyString => false
  | String c rest => Ascii.eqb c "," || has_comma rest
  end.

(** The page of [mark_attendance] is the marking page, not a redirect. *)
Definition offers_marking (p : Views.page) : bool :=
  match p with
  | Views.Render _ _ _ _ => true
  | Views.Redirect _ _ => false
  end.

(** ** Concrete data for the examples, in binary64 *)

(** Left-to-right summation in binary64. *)
Definition blas64 : Blas := sequential (fmt := binary64).

Module Demo.

#[local] Existing Instance binary64.
#[local] Existing Instance blas64.

Definition f64 (num den : Z) : float := fdiv (of_int num) (of_int den).

Definition vga : image := {| shape0 := 480; shape1 := 640; pixels := [] |}.

Definition left_face : box :=
  {| x1 := of_int 40; y1 := of_int 100; x2 := of_int 280; y2 := of_int 400 |}.

Definition right_face : box :=
  {| x1 := of_int 360; y1 := of_int 120; x2 := of_int 600; y2 := of_int 420 |}.

(** A detector that reports two faces, of confidence 0.97 and 0.96. *)
Definition two_faces (_ : image) : exc (option (list (box * float))) :=
  Ok (Some [(left_face, f64 97 100); (right_face, f64 96 100)]).

(** A detector that reports the left face only. *)
Definition one_face (_ : image) : exc (option (list (box * float))) :=
  Ok (Some [(left_face, f64 97 100)]).

(** A network whose raw output is [(3, 4)] whatever the crop. *)
Definition const_net (_ : image) (_ : box) : exc (option embedding) :=
  Ok (Some [of_int 3; of_int 4]).

Definition enrolled : embedding := [f64 3 5; f64 4 5].

Definition index : dict :=
  [(7, {| encoding := enrolled; entry_user_id := 7 |})].

Definition crowd_cam : FaceRecognizer :=
  {| mtcnn := two_faces; resnet := const_net; known_faces := index |}.

Definition solo_cam : FaceRecognizer :=
  {| mtcnn := one_face; resnet := const_net; known_faces := index |}.

Definition defaults : Settings := {| FACE_RECOGNITION_TOLERANCE := None |}.

(** A stand-in for [pickle.loads]: one byte per component, each byte read
    as an integer; a leading zero byte is not a pickle. *)
Definition loads (b : bytes) : exc embedding :=
  match b with
  | Byte.x00 :: _ => Raise UnpicklingError
  | _ => Ok (map (fun c => of_int (Z.of_N (Byte.to_N c))) b)
  end.

Definition good_blob : bytes := [Byte.x03; Byte.x04].
Definition bad_blob : bytes := [Byte.x00; Byte.x04].

Definition table : list FaceProfile :=
  [ {| user_id := 1; face_encoding := Some good_blob; is_active := true |};
    {| user_id := 2; face_encoding := Some bad_blob; is_active := true |};
    {| user_id := 3; face_encoding := Some good_blob; is_active := true |} ].

Definition table_inactive : list FaceProfile :=
  [ {| user_id := 1; face_encoding := Some good_blob; is_active := true |};
    {| user_id := 2; face_encoding := Some good_blob; is_active := false |};
    {| user_id := 3; face_encoding := None; is_active := true |} ].

(** A box of ten pixels by ten, and a frame without rows. *)
Definition tiny_box : box :=
  {| x1 := of_int 100; y1 := of_int 100; x2 := of_int 110; y2 := of_int 110 |}.

Definition blank : image := {| shape0 := 0; shape1 := 640; pixels := [] |}.

(** A detector that reports the ten-pixel face only. *)
Definition one_tiny_face (_ : image) : exc (option (list (box * float))) :=
  Ok (Some [(tiny_box, f64 97 100)]).

(** A detector that finds nothing. *)
Definition no_face (_ : image) : exc (option (list (box * float))) :=
  Ok None.

Definition tiny_cam : FaceRecognizer :=
  {| mtcnn := one_tiny_face; resnet := const_net; known_faces := index |}.

Definition empty_cam : FaceRecognizer :=
  {| mtcnn := no_face; resnet := const_net; known_faces := index |}.

(** A second enrolled user, and a threshold of exactly [1.0]. *)
Definition index2 : dict :=
  (index ++
   [(8, {| encoding := [of_int 1; of_int 0]; entry_user_id := 8 |})])%list.

Definition strict_one : Settings :=
  {| FACE_RECOGNITION_TOLERANCE := Some (of_int 1) |}.

End Demo.

(** ** Further concrete data, in binary64 *)

Module Fixtures.

#[local] Existing Instance binary64.
#[local] Existing Instance blas64.
Import Models.

(** A detector that fails. *)
Definition failing_detector (_ : image)
  : exc (option (list (box * float))) :=
  Raise RuntimeError.

Definition blind_cam : FaceRecognizer :=
  {| mtcnn := failing_detector; resnet := Demo.const_net;
     known_faces := Demo.index |}.

(** Two users enrolled with the same embedding. *)
Definition twin_index : dict :=
  [(7, {| encoding := Demo.enrolled; entry_user_id := 7 |});
   (8, {| encoding := Demo.enrolled; entry_user_id := 8 |})].

Definition twin_cam : FaceRecognizer :=
  {| mtcnn := Demo.one_face; resnet := Demo.const_net;
     known_faces := twin_index |}.

(** An index with one embedding of three components among those of two. *)
Definition mixed_index : dict :=
  (Demo.index ++
   [(9, {| encoding := [of_int 1; of_int 0; of_int 0];
           entry_user_id := 9 |})])%list.

Definition mixed_cam : FaceRecognizer :=
  {| mtcnn := Demo.one_face; resnet := Demo.const_net;
     known_faces := mixed_index |}.

(** A recognizer that crops as the source does, around a network of
    constant output. *)
Definition cropping_cam : FaceRecognizer :=
  {| mtcnn := Demo.one_face;
     resnet := embed_crop (fun _ _ => Ok [of_int 3; of_int 4]);
     known_faces := Demo.index |}.

Definition nan_box : box :=
  {| x1 := S754_nan; y1 := of_int 100; x2 := of_int 280; y2 := of_int 400 |}.

(** A box within the frame, of positive width, that spans no whole
    column: 40.2 to 40.9. *)
Definition sub_pixel_box : box :=
  {| x1 := fdiv (of_int 402) (of_int 10); y1 := of_int 100;
     x2 := fdiv (of_int 409) (of_int 10); y2 := of_int 400 |}.

Definition half_past_nine : time :=
  {| hour := 9; minute := 30; second := 0; microsecond := 0 |}.

Definition morning : time :=
  {| hour := 8; minute := 15; second := 0; microsecond := 0 |}.

Definition evening : time :=
  {| hour := 17; minute := 45; second := 30; microsecond := 0 |}.

Definition request_of (verb : string) (action : option string)
  : Views.HttpRequest :=
  {| Views.http_method := verb; Views.request_user := 7;
     Views.POST_action := action; Views.GET_action := action;
     Views.HTTP_X_FORWARDED_FOR := Some "203.0.113.7, 10.0.0.1";
     Views.REMOTE_ADDR := Some "10.0.0.1";
     Views.FILES_face_image := Some [Byte.x01];
     Views.has_session := true |}.

(** The same request on a site without the session middleware. *)
Definition request_without_session (verb : string) : Views.HttpRequest :=
  {| Views.http_method := verb; Views.request_user := 7;
     Views.POST_action := None; Views.GET_action := None;
     Views.HTTP_X_FORWARDED_FOR := Some "203.0.113.7, 10.0.0.1";
     Views.REMOTE_ADDR := Some "10.0.0.1";
     Views.FILES_face_image := Some [Byte.x01];
     Views.has_session := false |}.

(** Yesterday's completed row of user 7 and today's of user 5. *)
Definition ledger : list Attendance :=
  [ {| user := 7; date := 99; time_in := morning; time_out := Some evening;
       status := "PRESENT"; method := "FACE" |};
    {| user := 5; date := 100; time_in := morning; time_out := None;
       status := "PRESENT"; method := "FACE" |} ].

(** The table once user 7 has completed day 100. *)
Definition closed_ledger : list Attendance :=
  (ledger ++
   [{| user := 7; date := 100; time_in := morning;
       time_out := Some evening; status := "PRESENT";
       method := "FACE" |}])%list.

Definition alice_profile : FaceProfile :=
  {| user_id := 1; face_encoding := Some Demo.good_blob; is_active := true |}.

Definition alice : User :=
  {| id := 1; position := "ADMIN"; is_authenticated := true;
     face_profile := Some alice_profile |}.

Definition bob : User :=
  {| id := 7; position := "STAFF"; is_authenticated := true;
     face_profile := None |}.

(** User 7 once enrolled. *)
Definition carol : User :=
  {| id := 7; position := "STAFF"; is_authenticated := true;
     face_profile :=
       Some {| user_id := 7; face_encoding := Some Demo.good_blob;
               is_active := true |} |}.

(** An image decoder that yields the 640x480 frame. *)
Definition decode_vga (_ : bytes) : exc frame := Ok (Some Demo.vga).

(** A face login of user 7, enrolled, on a site without the session
    middleware. *)
Definition sessionless_login : Views.JsonResponse * Views.Effects :=
  Views.verify_face_login Demo.solo_cam Demo.defaults decode_vga
    [alice; carol] ledger (request_without_session "POST") 1234 100 morning
    "Welcome".

End Fixtures.

(** ** Properties *)

Section Properties.

Context {fmt : FloatFormat} {blas : Blas}.

(** *** The two entry points, seen through [located_embedding] *)

Lemma identify_user_eq self settings f location :
  identify_user self settings f location =
  try_except
    (match known_faces self with
     | [] => Ok None
     | _ :: _ =>
         q <- located_embedding self f location ;;
         match q with
         | None => Ok None
         | Some query =>
             r <- compare_known query (known_faces self) None (of_int (-1)) ;;
             if fgt (snd r) (threshold settings) then Ok (fst r) else Ok None
         end
     end)
    (fun _ => None).
Proof.
  unfold identify_user, located_embedding.
  destruct (known_faces self) as [|kv rest] eqn:Hk; [reflexivity|].
  assert (Hpair : forall query,
    (r <- compare_known query (kv :: rest) None (of_int (-1)) ;;
     (let '(best_match, best_similarity) := r in
      if fgt best_similarity (threshold settings)
      then Ok best_match else Ok None)) =
    (r <- compare_known query (kv :: rest) None (of_int (-1)) ;;
     if fgt (snd r) (threshold settings) then Ok (fst r) else Ok None)).
  { intros query.
    destruct (compare_known query (kv :: rest) None (of_int (-1)))
      as [[bm bs]|e]; reflexivity. }
  destruct location as [loc|]; cbn [bind].
  - destruct (get_face_embedding self f loc); [rewrite Hpair|]; reflexivity.
  - destruct (negb (is_valid (process_frame self f))); [reflexivity|].
    destruct (face_location (process_frame self f)) as [loc|];
      [|reflexivity].
    cbn [bind].
    destruct (get_face_embedding self f loc); [rewrite Hpair|]; reflexivity.
Qed.

Lemma verify_user_face_eq self settings uid f location :
  verify_user_face self settings uid f location =
  try_except
    (match dict_get (known_faces self) uid with
     | None => Ok false
     | Some data =>
         q <- located_embedding self f location ;;
         match q with
         | None => Ok false
         | Some query =>
             similarity <- np_dot query (encoding data) ;;
             Ok (fgt similarity (threshold settings))
         end
     end)
    (fun _ => false).
Proof.
  unfold verify_user_face, located_embedding, dict_mem.
  destruct (dict_get (known_faces self) uid) as [data|]; [|reflexivity].
  cbn [negb].
  destruct location as [loc|]; cbn [bind]; [reflexivity|].
  destruct (negb (is_valid (process_frame self f))); [reflexivity|].
  destruct (face_location (process_frame self f)); reflexivity.
Qed.

(** Neither the detector's verdict nor the embedding looks at the index. *)
Lemma located_embedding_index self faces f location :
  located_embedding (set_known_faces self faces) f location =
  located_embedding self f location.
Proof. reflexivity. Qed.

(** *** Identification on an empty index *)

(** C8: whatever the frame (an absent or empty one included) and whatever
    location is passed, identification on an empty enrollment index
    returns [None]. *)
Theorem identify_user_empty_index self settings f location :
  known_faces self = [] ->
  identify_user self settings f location = None.
Proof. intros Hempty. unfold identify_user. rewrite Hempty. reflexivity. Qed.

(** *** Verification of an identity that is not enrolled *)

(** C9: when the claimed identity has no entry in the index, verification
    returns [false]; being a total function into [bool], it raises
    nothing. *)
Theorem verify_user_face_absent self settings uid f location :
  dict_get (known_faces self) uid = None ->
  verify_user_face self settings uid f location = false.
Proof.
  intros Habsent. rewrite verify_user_face_eq, Habsent. reflexivity.
Qed.

(** *** Verification reads one entry *)

(** C2: two indexes that agree on the claimed identity's entry (absent in
    both, or present in both with the same embedding) give the same
    verification result, for every frame and location. *)
Theorem verify_user_face_only_claimed self faces1 faces2 settings uid f
    location :
  option_map encoding (dict_get faces1 uid) =
  option_map encoding (dict_get faces2 uid) ->
  verify_user_face (set_known_faces self faces1) settings uid f location =
  verify_user_face (set_known_faces self faces2) settings uid f location.
Proof.
  intros Hagree.
  rewrite !verify_user_face_eq, !located_embedding_index.
  cbn [known_faces set_known_faces].
  destruct (dict_get faces1 uid) as [d1|], (dict_get faces2 uid) as [d2|];
    cbn [option_map] in Hagree; try discriminate; [|reflexivity].
  injection Hagree as Henc.
  destruct (located_embedding self f location) as [[query|]|e];
    cbn [bind]; try reflexivity.
  rewrite Henc. reflexivity.
Qed.

(** *** The frame validator *)

Lemma py_max_single key b : py_max key [b] = Ok b.
Proof. reflexivity. Qed.

Lemma process_frame_empty self f :
  frame_empty f = true ->
  process_frame self f = rejected "Empty image received".
Proof.
  unfold process_frame, frame_empty.
  destruct f as [img|]; [|reflexivity].
  intros ->. reflexivity.
Qed.

Lemma process_frame_single self img b :
  size img <> 0 ->
  detect_faces self (Some img) = [b] ->
  process_frame self (Some img) =
  if too_short img b then rejected "Please move closer to the camera"
  else if too_narrow img b
       then rejected "Please center your face in the frame"
       else accepted b.
Proof.
  intros Hsize Hboxes. unfold process_frame, too_short, too_narrow.
  apply Z.eqb_neq in Hsize. rewrite Hsize, Hboxes.
  cbn [List.length Nat.eqb Nat.ltb Nat.leb py_max fold_left bind].
  destruct (flt _ _); [reflexivity|].
  destruct (flt _ _); reflexivity.
Qed.

Lemma process_frame_none self img :
  size img <> 0 ->
  detect_faces self (Some img) = [] ->
  process_frame self (Some img) =
  rejected "No faces detected. Please ensure your face is visible and well-lit".
Proof.
  intros Hsize Hboxes. unfold process_frame.
  apply Z.eqb_neq in Hsize. rewrite Hsize, Hboxes. reflexivity.
Qed.

Lemma process_frame_many self img :
  size img <> 0 ->
  (1 < List.length (detect_faces self (Some img)))%nat ->
  process_frame self (Some img) =
  rejected "Multiple faces detected. Please ensure only your face is in the frame".
Proof.
  intros Hsize Hmany. unfold process_frame.
  apply Z.eqb_neq in Hsize. rewrite Hsize.
  destruct (detect_faces self (Some img)) as [|b1 [|b2 rest]];
    cbn [List.length] in Hmany; try lia.
  reflexivity.
Qed.

(** C3: the validator's checks come in a fixed order and the first one
    that fails gives the reason: an absent or empty image; then no box;
    then more than one box, whatever their sizes; then, for a single box,
    the height check before the width check; a single box that passes
    both is accepted and the verdict carries it. *)
Theorem process_frame_check_order self f :
  (frame_empty f = true ->
   process_frame self f = rejected "Empty image received")
  /\
  (frame_empty f = false ->
   (detect_faces self f = [] ->
    process_frame self f =
    rejected "No faces detected. Please ensure your face is visible and well-lit")
   /\
   ((1 < List.length (detect_faces self f))%nat ->
    process_frame self f =
    rejected "Multiple faces detected. Please ensure only your face is in the frame")
   /\
   (forall img b,
      f = Some img -> detect_faces self f = [b] ->
      (too_short img b = true ->
       process_frame self f = rejected "Please move closer to the camera")
      /\
      (too_short img b = false -> too_narrow img b = true ->
       process_frame self f =
       rejected "Please center your face in the frame")
      /\
      (too_short img b = false -> too_narrow img b = false ->
       process_frame self f = accepted b
       /\ face_location (process_frame self f) = Some b))).
Proof.
  split; [apply process_frame_empty|].
  destruct f as [img|]; cbn [frame_empty]; [|discriminate].
  intros Hsize. apply Z.eqb_neq in Hsize.
  split; [apply process_frame_none; assumption|].
  split; [apply process_frame_many; assumption|].
  intros img' b [= <-] Hboxes.
  rewrite (process_frame_single self img b Hsize Hboxes).
  split; [intros ->; reflexivity|].
  split; [intros -> ->; reflexivity|].
  intros -> ->. split; reflexivity.
Qed.

(** Every verdict is a rejection with a message or the acceptance of one
    box. *)
Lemma process_frame_cases self f :
  (exists msg, process_frame self f = rejected msg) \/
  (exists b, process_frame self f = accepted b).
Proof.
  destruct (frame_empty f) eqn:Hempty.
  - left. eexists. apply process_frame_empty. assumption.
  - destruct f as [img|]; cbn [frame_empty] in Hempty; [|discriminate].
    apply Z.eqb_neq in Hempty.
    destruct (detect_faces self (Some img)) as [|b [|b' rest]] eqn:Hboxes.
    + left. eexists. apply process_frame_none; assumption.
    + rewrite (process_frame_single self img b Hempty Hboxes).
      destruct (too_short img b); [left; eexists; reflexivity|].
      destruct (too_narrow img b); [left|right]; eexists; reflexivity.
    + left. eexists. apply process_frame_many; [assumption|].
      rewrite Hboxes. cbn [List.length]. lia.
Qed.

(** C7, as amended: only an accepting verdict carries [face_count], and
    there it is 1, next to the accepted box; a rejecting verdict carries
    an error message and neither [face_count] nor [face_location]. With
    two boxes detected the verdict is the multiple-faces rejection. *)
Theorem face_count_only_when_valid self f :
  (is_valid (process_frame self f) = true ->
   face_count (process_frame self f) = Some 1
   /\ exists b, face_location (process_frame self f) = Some b)
  /\
  (is_valid (process_frame self f) = false ->
   face_count (process_frame self f) = None
   /\ face_location (process_frame self f) = None
   /\ exists msg, error (process_frame self f) = Some msg)
  /\
  (frame_empty f = false ->
   List.length (detect_faces self f) = 2%nat ->
   process_frame self f =
   rejected "Multiple faces detected. Please ensure only your face is in the frame").
Proof.
  split; [|split].
  - destruct (process_frame_cases self f) as [[msg ->]|[b ->]];
      cbn [is_valid rejected accepted face_count face_location];
      [discriminate|].
    intros _. split; [reflexivity|]. exists b. reflexivity.
  - destruct (process_frame_cases self f) as [[msg ->]|[b ->]];
      cbn [is_valid rejected accepted face_count face_location error];
      [|discriminate].
    intros _. split; [reflexivity|]. split; [reflexivity|].
    exists msg. reflexivity.
  - intros Hempty Htwo.
    destruct f as [img|]; cbn [frame_empty] in Hempty; [|discriminate].
    apply process_frame_many; [apply Z.eqb_neq; assumption|].
    rewrite Htwo. lia.
Qed.

(** *** The matcher *)

(** What the loop over the index leaves in [best_match] and
    [best_similarity]. *)
Lemma compare_known_spec query items :
  forall bm bs bm' bs',
    compare_known query items bm bs = Ok (bm', bs') ->
    (bs' = bs \/ flt bs bs' = true)
    /\ ((bm' = bm /\ bs' = bs) \/
        (exists uid data,
           bm' = Some uid /\ In (uid, data) items
           /\ np_dot query (encoding data) = Ok bs'))
    /\ (forall uid data s',
          In (uid, data) items -> np_dot query (encoding data) = Ok s' ->
          fgt s' bs' = false).
Proof.
  induction items as [|[uid data] rest IH]; intros bm bs bm' bs' Hrun.
  - cbn in Hrun. injection Hrun as <- <-.
    split; [left; reflexivity|].
    split; [left; split; reflexivity|].
    intros ? ? ? [].
  - cbn [compare_known] in Hrun.
    destruct (np_dot query (encoding data)) as [sim|e] eqn:Hdot;
      cbn [bind] in Hrun; [|discriminate].
    destruct (fgt sim bs) eqn:Hgt.
    + destruct (IH _ _ _ _ Hrun) as (Hmono & Hwho & Hmax).
      assert (Hup : flt bs bs' = true).
      { destruct Hmono as [->|Hlt]; [exact Hgt|].
        exact (flt_trans _ _ _ Hgt Hlt). }
      split; [right; exact Hup|].
      split.
      * right. destruct Hwho as [[-> ->]|(u & d & -> & Hin & Hd)].
        -- exists uid, data. repeat split; [left; reflexivity|assumption].
        -- exists u, d. repeat split; [right; assumption|assumption].
      * intros u d s' [Heq|Hin] Hd.
        -- injection Heq as <- <-. rewrite Hdot in Hd. injection Hd as <-.
           change (flt bs' sim = false).
           destruct Hmono as [->|Hlt]; [apply flt_irrefl|].
           destruct (flt bs' sim) eqn:Hback; [|reflexivity].
           rewrite <- (flt_irrefl sim). symmetry.
           exact (flt_trans _ _ _ Hlt Hback).
        -- exact (Hmax u d s' Hin Hd).
    + destruct (IH _ _ _ _ Hrun) as (Hmono & Hwho & Hmax).
      split; [exact Hmono|].
      split.
      * destruct Hwho as [Hsame|(u & d & -> & Hin & Hd)]; [left; exact Hsame|].
        right. exists u, d. repeat split; [right; assumption|assumption].
      * intros u d s' [Heq|Hin] Hd.
        -- injection Heq as <- <-. rewrite Hdot in Hd. injection Hd as <-.
           change (flt bs sim = false) in Hgt. change (flt bs' sim = false).
           destruct Hmono as [->|Hlt]; [exact Hgt|].
           destruct (flt bs' sim) eqn:Hback; [|reflexivity].
           rewrite <- Hgt. symmetry. exact (flt_trans _ _ _ Hlt Hback).
        -- exact (Hmax u d s' Hin Hd).
Qed.

Lemma identify_user_some self settings f location uid :
  identify_user self settings f location = Some uid ->
  exists query data s,
    located_embedding self f location = Ok (Some query)
    /\ In (uid, data) (known_faces self)
    /\ np_dot query (encoding data) = Ok s
    /\ unsurpassed query (known_faces self) s
    /\ fgt s (threshold settings) = true.
Proof.
  rewrite identify_user_eq.
  destruct (known_faces self) as [|kv rest] eqn:Hk; [discriminate|].
  rewrite <- Hk. clear Hk kv rest.
  destruct (located_embedding self f location) as [[query|]|e];
    cbn [bind try_except]; try discriminate.
  destruct (compare_known query (known_faces self) None (of_int (-1)))
    as [[bm bs]|e] eqn:Hrun; cbn [bind try_except fst snd];
    [|discriminate].
  destruct (fgt bs (threshold settings)) eqn:Hgt; cbn [try_except];
    [|discriminate].
  intros ->.
  destruct (compare_known_spec _ _ _ _ _ _ Hrun) as (_ & Hwho & Hmax).
  destruct Hwho as [[Hnone _]|(u & d & Hu & Hin & Hd)]; [discriminate|].
  injection Hu as <-.
  exists query, d, bs. repeat split; assumption.
Qed.

Lemma verify_user_face_true self settings uid f location :
  verify_user_face self settings uid f location = true ->
  exists query data s,
    located_embedding self f location = Ok (Some query)
    /\ dict_get (known_faces self) uid = Some data
    /\ np_dot query (encoding data) = Ok s
    /\ fgt s (threshold settings) = true.
Proof.
  rewrite verify_user_face_eq.
  destruct (dict_get (known_faces self) uid) as [data|]; [|discriminate].
  destruct (located_embedding self f location) as [[query|]|e];
    cbn [bind try_except]; try discriminate.
  destruct (np_dot query (encoding data)) as [s|e] eqn:Hdot;
    cbn [bind try_except]; [|discriminate].
  intros Hgt. exists query, data, s. repeat split; assumption.
Qed.

(** C1: with [t] the threshold in force, that is the configured one or
    the Python float 0.8 when none is configured, identification returns
    an identity only if the largest similarity over the index is strictly
    above [t], and returns [None] when that largest similarity equals
    [t]; verification returns [true] only if the similarity to the
    claimed identity's stored embedding is strictly above [t], and
    [false] when it equals [t]. *)
Theorem threshold_is_strict self settings f location t :
  tolerance_is settings t ->
  (forall uid,
     identify_user self settings f location = Some uid ->
     exists query s,
       located_embedding self f location = Ok (Some query)
       /\ max_similarity query (known_faces self) s
       /\ fgt s t = true)
  /\
  (forall query s,
     located_embedding self f location = Ok (Some query) ->
     max_similarity query (known_faces self) s ->
     feq s t = true ->
     identify_user self settings f location = None)
  /\
  (forall uid,
     verify_user_face self settings uid f location = true ->
     exists query data s,
       located_embedding self f location = Ok (Some query)
       /\ dict_get (known_faces self) uid = Some data
       /\ np_dot query (encoding data) = Ok s
       /\ fgt s t = true)
  /\
  (forall uid query data s,
     located_embedding self f location = Ok (Some query) ->
     dict_get (known_faces self) uid = Some data ->
     np_dot query (encoding data) = Ok s ->
     feq s t = true ->
     verify_user_face self settings uid f location = false).
Proof.
  intros Hconf.
  assert (Ht : threshold settings = t).
  { unfold threshold. destruct Hconf as [->|[-> ->]]; reflexivity. }
  subst t.
  split; [|split; [|split]].
  - intros uid Hid.
    destruct (identify_user_some _ _ _ _ _ Hid)
      as (query & data & s & Hq & Hin & Hd & Hmax & Hgt).
    exists query, s. split; [assumption|]. split; [|assumption].
    split; [exists uid, data; split; assumption|assumption].
  - intros query s Hq [_ Hmax] Heq.
    destruct (identify_user self settings f location) as [uid|] eqn:Hid;
      [|reflexivity].
    destruct (identify_user_some _ _ _ _ _ Hid)
      as (query' & data & s' & Hq' & Hin & Hd & _ & Hgt).
    rewrite Hq in Hq'. injection Hq' as <-.
    pose proof (Hmax uid data s' Hin Hd) as Hle.
    change (flt s s' = false) in Hle.
    change (flt (threshold settings) s' = true) in Hgt.
    rewrite (feq_flt_l _ _ _ Heq Hgt) in Hle. discriminate.
  - intros uid. apply verify_user_face_true.
  - intros uid query data s Hq Hget Hd Heq.
    rewrite verify_user_face_eq, Hget, Hq. cbn [bind]. rewrite Hd.
    cbn [bind try_except]. apply feq_not_fgt. assumption.
Qed.

(** *** Rebuilding the index *)

Variable pickle_loads : bytes -> exc embedding.

Lemma dict_get_set d k v k' :
  dict_get (dict_set d k v) k' =
  if k =? k' then Some v else dict_get d k'.
Proof.
  induction d as [|[k0 v0] rest IH]; cbn [dict_set dict_get].
  - reflexivity.
  - destruct (k0 =? k) eqn:Hk0; cbn [dict_get].
    + apply Z.eqb_eq in Hk0. subst k0.
      destruct (k =? k'); reflexivity.
    + rewrite IH. destruct (k0 =? k') eqn:Hk0'; [|reflexivity].
      apply Z.eqb_eq in Hk0'. subst k0.
      rewrite (Z.eqb_sym k k'), Hk0. reflexivity.
Qed.

Lemma dict_mem_set d k v k' :
  dict_mem (dict_set d k v) k' = (k =? k') || dict_mem d k'.
Proof.
  unfold dict_mem. rewrite dict_get_set. destruct (k =? k'); reflexivity.
Qed.

Lemma load_profiles_corrupt profiles :
  forall faces p b e,
    In p profiles -> stored p b -> pickle_loads b = Raise e ->
    exists e', load_profiles pickle_loads profiles faces = Raise e'.
Proof.
  induction profiles as [|q rest IH]; intros faces p b e Hin Hst Hbad;
    [destruct Hin|].
  cbn [load_profiles].
  destruct Hin as [->|Hin].
  - destruct Hst as [Hb Ht]. rewrite Ht, Hb, Hbad. eexists. reflexivity.
  - destruct (truthy (face_encoding q)); [|eapply IH; eassumption].
    destruct (pickle_loads
                match face_encoding q with Some b0 => b0 | None => [] end)
      as [enc|e0]; cbn [bind];
      [eapply IH; eassumption|eexists; reflexivity].
Qed.

Lemma load_profiles_sound profiles :
  forall faces,
    (forall p b, In p profiles -> stored p b ->
                 exists enc, pickle_loads b = Ok enc) ->
    exists d,
      load_profiles pickle_loads profiles faces = Ok d
      /\ forall uid,
           dict_mem d uid = true <->
           (dict_mem faces uid = true \/
            exists p, In p profiles /\ user_id p = uid
                      /\ truthy (face_encoding p) = true).
Proof.
  induction profiles as [|q rest IH]; intros faces Hok.
  - exists faces. split; [reflexivity|].
    intros uid. split; [left; assumption|].
    intros [H|(p & [] & _)]. assumption.
  - cbn [load_profiles].
    assert (Hrest : forall p b, In p rest -> stored p b ->
                                exists enc, pickle_loads b = Ok enc).
    { intros p b Hin. apply Hok. right. assumption. }
    destruct (truthy (face_encoding q)) eqn:Ht.
    + destruct (face_encoding q) as [b|] eqn:Hb; [|discriminate].
      destruct (Hok q b (or_introl eq_refl)) as [enc Henc].
      { split; [assumption|]. rewrite Hb. assumption. }
      rewrite Henc. cbn [bind].
      destruct (IH (dict_set faces (user_id q)
                      {| encoding := enc; entry_user_id := user_id q |})
                   Hrest) as (d & Hd & Hkeys).
      exists d. split; [assumption|].
      intros uid. rewrite Hkeys, dict_mem_set, orb_true_iff, Z.eqb_eq.
      split.
      * intros [[Hq|Hf]|(p & Hin & Hu & Hp)].
        -- right. exists q. repeat split; [left; reflexivity|assumption|].
           rewrite Hb. assumption.
        -- left. assumption.
        -- right. exists p. repeat split; [right; assumption|assumption..].
      * intros [Hf|(p & [<-|Hin] & Hu & Hp)].
        -- left. right. assumption.
        -- left. left. assumption.
        -- right. exists p. repeat split; assumption.
    + destruct (IH faces Hrest) as (d & Hd & Hkeys).
      exists d. split; [assumption|].
      intros uid. rewrite Hkeys. split.
      * intros [Hf|(p & Hin & Hu & Hp)]; [left; assumption|].
        right. exists p. repeat split; [right; assumption|assumption..].
      * intros [Hf|(p & [<-|Hin] & Hu & Hp)]; [left; assumption| |].
        -- rewrite Ht in Hp. discriminate.
        -- right. exists p. repeat split; assumption.
Qed.

(** C4, as amended: a stored descriptor that fails to deserialize aborts
    the rebuild: the index is left empty, whatever the other records
    hold, and the call returns normally. *)
Theorem load_known_faces_corrupt_empties self profiles p b e :
  In p profiles -> stored p b -> pickle_loads b = Raise e ->
  known_faces (load_known_faces pickle_loads self profiles) = [].
Proof.
  intros Hin Hst Hbad. unfold load_known_faces.
  destruct (load_profiles_corrupt profiles [] p b e Hin Hst Hbad)
    as [e' ->].
  reflexivity.
Qed.

(** The identities that the loader, as it stands, puts in the index: when
    every stored descriptor deserializes, those of the records with a
    non-empty stored descriptor. *)
Theorem load_known_faces_keys self profiles :
  (forall p b, In p profiles -> stored p b ->
               exists enc, pickle_loads b = Ok enc) ->
  forall uid,
    dict_mem (known_faces (load_known_faces pickle_loads self profiles)) uid
    = true <->
    exists p, In p profiles /\ user_id p = uid
              /\ truthy (face_encoding p) = true.
Proof.
  intros Hok uid. unfold load_known_faces.
  destruct (load_profiles_sound profiles [] Hok) as (d & -> & Hkeys).
  cbn [bind try_except set_known_faces known_faces].
  rewrite Hkeys. split; [|right; assumption].
  intros [Hnil|H]; [discriminate|assumption].
Qed.

End Properties.

(** ** Results that mix all formats with concrete ones *)

(** C5, as amended: with a location supplied, [process_frame] is not
    called: each entry point gives the matcher's answer on
    [get_face_embedding(frame, face_location)], whatever the detector; so
    the no-face, multiple-faces and minimum-size checks are not applied,
    and both return a positive result on a frame with two detected faces,
    on a frame with no detected face and for a supplied box below the
    minimum size. An absent or empty frame is still refused, by the check
    of [get_face_embedding] itself. *)
Theorem supplied_location_skips_validation :
  (forall (fmt : FloatFormat) (blas : Blas) self settings f loc,
     identify_user self settings f (Some loc) =
     match_identity self settings (get_face_embedding self f loc))
  /\
  (forall (fmt : FloatFormat) (blas : Blas) self settings uid f loc,
     verify_user_face self settings uid f (Some loc) =
     match_claim self settings uid (get_face_embedding self f loc))
  /\
  (forall (fmt : FloatFormat) (blas : Blas) self detector settings uid f loc,
     identify_user (set_mtcnn self detector) settings f (Some loc) =
     identify_user self settings f (Some loc)
     /\ verify_user_face (set_mtcnn self detector) settings uid f (Some loc) =
        verify_user_face self settings uid f (Some loc))
  /\
  (forall (fmt : FloatFormat) (blas : Blas) self settings uid f loc,
     frame_empty f = true ->
     identify_user self settings f (Some loc) = None
     /\ verify_user_face self settings uid f (Some loc) = false)
  /\
  (exists self settings img loc uid,
     List.length (detect_faces self (Some img)) = 2%nat
     /\ process_frame (fmt := binary64) self (Some img) =
        rejected "Multiple faces detected. Please ensure only your face is in the frame"
     /\ identify_user (fmt := binary64) (blas := blas64) self settings
          (Some img) None = None
     /\ identify_user (fmt := binary64) (blas := blas64) self settings
          (Some img) (Some loc) = Some uid
     /\ verify_user_face (fmt := binary64) (blas := blas64) self settings
          uid (Some img) (Some loc) = true)
  /\
  (exists self settings img loc uid,
     detect_faces self (Some img) = []
     /\ process_frame (fmt := binary64) self (Some img) =
        rejected "No faces detected. Please ensure your face is visible and well-lit"
     /\ identify_user (fmt := binary64) (blas := blas64) self settings
          (Some img) None = None
     /\ identify_user (fmt := binary64) (blas := blas64) self settings
          (Some img) (Some loc) = Some uid
     /\ verify_user_face (fmt := binary64) (blas := blas64) self settings
          uid (Some img) (Some loc) = true)
  /\
  (exists self settings img loc uid,
     detect_faces self (Some img) = [loc]
     /\ too_short (fmt := binary64) img loc = true
     /\ process_frame (fmt := binary64) self (Some img) =
        rejected "Please move closer to the camera"
     /\ identify_user (fmt := binary64) (blas := blas64) self settings
          (Some img) None = None
     /\ identify_user (fmt := binary64) (blas := blas64) self settings
          (Some img) (Some loc) = Some uid
     /\ verify_user_face (fmt := binary64) (blas := blas64) self settings
          uid (Some img) (Some loc) = true).
Proof.
  split.
  { intros fmt blas self settings f loc.
    rewrite identify_user_eq. unfold match_identity, located_embedding.
    destruct (known_faces self); reflexivity. }
  split.
  { intros fmt blas self settings uid f loc.
    rewrite verify_user_face_eq. unfold match_claim, located_embedding.
    destruct (dict_get (known_faces self) uid); reflexivity. }
  split; [intros; split; reflexivity|].
  split.
  { intros fmt blas self settings uid f loc Hempty.
    assert (Hnone : get_face_embedding self f loc = None).
    { unfold get_face_embedding. destruct f as [img|]; [|reflexivity].
      cbn [frame_empty] in Hempty. rewrite Hempty. reflexivity. }
    rewrite identify_user_eq, verify_user_face_eq.
    unfold located_embedding. rewrite Hnone. split.
    - destruct (known_faces self); reflexivity.
    - destruct (dict_get (known_faces self) uid); reflexivity. }
  split; [|split].
  - exists Demo.crowd_cam, Demo.defaults, Demo.vga, Demo.left_face, 7.
    repeat split; vm_compute; reflexivity.
  - exists Demo.empty_cam, Demo.defaults, Demo.vga, Demo.left_face, 7.
    repeat split; vm_compute; reflexivity.
  - exists Demo.tiny_cam, Demo.defaults, Demo.vga, Demo.tiny_box, 7.
    repeat split; vm_compute; reflexivity.
Qed.

(** ** Concrete instances *)

Section Instances.

#[local] Existing Instance binary64.
#[local] Existing Instance blas64.
Import Demo.

Lemma threshold_is_strict_witness :
  tolerance_is strict_one (of_int 1)
  /\ located_embedding solo_cam (Some vga) None = Ok (Some enrolled)
  /\ max_similarity enrolled (known_faces solo_cam) (of_int 1)
  /\ feq (of_int 1) (of_int 1) = true
  /\ identify_user solo_cam strict_one (Some vga) None = None.
Proof.
  assert (Hconf : tolerance_is strict_one (of_int 1))
    by (left; reflexivity).
  assert (Hq : located_embedding solo_cam (Some vga) None
               = Ok (Some enrolled)) by (vm_compute; reflexivity).
  assert (Hmax : max_similarity enrolled (known_faces solo_cam) (of_int 1)).
  { split.
    - exists 7, {| encoding := enrolled; entry_user_id := 7 |}.
      split; [left; reflexivity|vm_compute; reflexivity].
    - intros uid data s' [Heq|[]] Hdot. injection Heq as _ <-.
      vm_compute in Hdot. injection Hdot as <-. vm_compute. reflexivity. }
  assert (Heq : feq (of_int 1) (of_int 1) = true) by (vm_compute; reflexivity).
  split; [exact Hconf|]. split; [exact Hq|]. split; [exact Hmax|].
  split; [exact Heq|].
  exact (proj1 (proj2 (threshold_is_strict solo_cam strict_one (Some vga)
                         None (of_int 1) Hconf))
           enrolled (of_int 1) Hq Hmax Heq).
Defined.

(** With no threshold configured the Python float 0.8 is in force, and
    the enrolled user, of similarity 1.0, is identified. *)
Example identify_user_default_threshold :
  tolerance_is defaults python_0_8
  /\ python_0_8 = S754_finite false 7205759403792794 (-53)
  /\ identify_user solo_cam defaults (Some vga) None = Some 7.
Proof.
  split; [right; split; reflexivity|]. split; vm_compute; reflexivity.
Qed.

(** In binary32 the similarity of [(1, 0)] with the enrolled
    [(0.8f, 0.6f)] is the float32 nearest to 0.8, which lies strictly
    above the Python float 0.8: the user is identified. *)
Example identify_user_float32_above_python_0_8 :
  let net (_ : image) (_ : box) : exc (option embedding) :=
    Ok (Some [of_int (fmt := binary32) 1; of_int (fmt := binary32) 0]) in
  let stored : embedding :=
    [fdiv (fmt := binary32) (of_int (fmt := binary32) 4)
          (of_int (fmt := binary32) 5);
     fdiv (fmt := binary32) (of_int (fmt := binary32) 3)
          (of_int (fmt := binary32) 5)] in
  identify_user (fmt := binary32) (blas := sequential (fmt := binary32))
    {| mtcnn := one_face; resnet := net;
       known_faces := [(7, {| encoding := stored; entry_user_id := 7 |})] |}
    defaults (Some vga) (Some left_face) = Some 7.
Proof. vm_compute. reflexivity. Qed.

(** The same frame with the threshold set to the similarity it reaches. *)
Example identify_user_at_threshold :
  np_dot enrolled enrolled = Ok (of_int 1)
  /\ identify_user solo_cam strict_one (Some vga) None = None
  /\ verify_user_face solo_cam strict_one 7 (Some vga) None = false.
Proof. repeat split; vm_compute; reflexivity. Qed.

(** What [np.dot] returns depends on the kernel. With the one that sums
    from left to right in binary64, the embedding made of the raw output
    (1, 1) has a similarity with itself just below 1. *)
Example sequential_self_similarity_below_one :
  let q := [S754_finite false 6369051672525772 (-53);
            S754_finite false 6369051672525772 (-53)] in
  let s := S754_finite false 9007199254740990 (-53) in
  get_face_embedding
    {| mtcnn := one_face;
       resnet := fun _ _ => Ok (Some [of_int 1; of_int 1]);
       known_faces := [] |} (Some vga) left_face = Some q
  /\ np_dot q q = Ok s
  /\ flt s (of_int 1) = true.
Proof.
  split; [vm_compute; reflexivity|].
  split; [vm_compute; reflexivity|vm_compute; reflexivity].
Qed.

Lemma verify_user_face_only_claimed_witness :
  option_map encoding (dict_get index 7) =
  option_map encoding (dict_get index2 7)
  /\ verify_user_face (set_known_faces solo_cam index) defaults 7
       (Some vga) None =
     verify_user_face (set_known_faces solo_cam index2) defaults 7
       (Some vga) None.
Proof.
  split; [reflexivity|].
  apply (verify_user_face_only_claimed solo_cam index index2).
  reflexivity.
Defined.

Lemma process_frame_check_order_witness :
  frame_empty (Some vga) = false
  /\ detect_faces solo_cam (Some vga) = [left_face]
  /\ too_short vga left_face = false
  /\ too_narrow vga left_face = false
  /\ process_frame solo_cam (Some vga) = accepted left_face.
Proof.
  assert (He : frame_empty (Some vga) = false) by reflexivity.
  assert (Hd : detect_faces solo_cam (Some vga) = [left_face])
    by (vm_compute; reflexivity).
  assert (Hs : too_short vga left_face = false) by (vm_compute; reflexivity).
  assert (Hn : too_narrow vga left_face = false)
    by (vm_compute; reflexivity).
  split; [exact He|]. split; [exact Hd|].
  split; [exact Hs|]. split; [exact Hn|].
  destruct (process_frame_check_order solo_cam (Some vga)) as [_ Hrest].
  destruct (Hrest He) as (_ & _ & Hone).
  destruct (Hone vga left_face eq_refl Hd) as (_ & _ & Hacc).
  exact (proj1 (Hacc Hs Hn)).
Defined.

Lemma face_count_only_when_valid_witness :
  frame_empty (Some vga) = false
  /\ List.length (detect_faces crowd_cam (Some vga)) = 2%nat
  /\ process_frame crowd_cam (Some vga) =
     rejected "Multiple faces detected. Please ensure only your face is in the frame".
Proof.
  assert (He : frame_empty (Some vga) = false) by reflexivity.
  assert (Hd : List.length (detect_faces crowd_cam (Some vga)) = 2%nat)
    by (vm_compute; reflexivity).
  split; [exact He|]. split; [exact Hd|].
  exact (proj2 (proj2 (face_count_only_when_valid crowd_cam (Some vga)))
           He Hd).
Defined.

Lemma identify_user_empty_index_witness :
  known_faces (set_known_faces solo_cam []) = []
  /\ identify_user (set_known_faces solo_cam []) defaults None None = None.
Proof.
  split; [reflexivity|].
  apply (identify_user_empty_index (set_known_faces solo_cam [])).
  reflexivity.
Defined.

Lemma verify_user_face_absent_witness :
  dict_get (known_faces solo_cam) 8 = None
  /\ verify_user_face solo_cam defaults 8 (Some vga) None = false.
Proof.
  split; [reflexivity|].
  apply (verify_user_face_absent solo_cam). reflexivity.
Defined.

Lemma load_known_faces_corrupt_empties_witness :
  In (Profile 2 (Some bad_blob) true) table
  /\ stored (Profile 2 (Some bad_blob) true) bad_blob
  /\ loads bad_blob = Raise UnpicklingError
  /\ known_faces (load_known_faces loads solo_cam table) = [].
Proof.
  assert (Hin : In (Profile 2 (Some bad_blob) true) table)
    by (right; left; reflexivity).
  assert (Hst : stored (Profile 2 (Some bad_blob) true) bad_blob)
    by (split; reflexivity).
  assert (Hbad : loads bad_blob = Raise UnpicklingError) by reflexivity.
  split; [exact Hin|]. split; [exact Hst|]. split; [exact Hbad|].
  exact (load_known_faces_corrupt_empties loads solo_cam table _ _ _
           Hin Hst Hbad).
Defined.

Lemma load_known_faces_keys_witness :
  (forall p b, In p table_inactive -> stored p b ->
               exists enc, loads b = Ok enc)
  /\ (dict_mem (known_faces (load_known_faces loads solo_cam table_inactive))
        2 = true <->
      exists p, In p table_inactive /\ user_id p = 2
                /\ truthy (face_encoding p) = true).
Proof.
  assert (Hok : forall p b, In p table_inactive -> stored p b ->
                            exists enc, loads b = Ok enc).
  { intros p b [<-|[<-|[<-|[]]]] [Hb _]; cbn in Hb;
      try discriminate; injection Hb as <-; eexists; reflexivity. }
  split; [exact Hok|].
  exact (load_known_faces_keys loads solo_cam table_inactive Hok 2).
Defined.

Lemma supplied_location_skips_validation_witness :
  frame_empty (Some blank) = true
  /\ identify_user solo_cam defaults (Some blank) (Some left_face) = None
  /\ verify_user_face solo_cam defaults 7 (Some blank) (Some left_face)
     = false.
Proof.
  split; [reflexivity|].
  apply (proj1 (proj2 (proj2 (proj2 supplied_location_skips_validation)))
           binary64 blas64 solo_cam defaults 7 (Some blank) left_face).
  reflexivity.
Defined.

(** *** Where the specification and the code part *)

(** C7: two faces of confidence 0.97 and 0.96 are detected; the verdict
    is a rejection without a [face_count]. *)
Lemma rejection_has_no_face_count :
  List.length (detect_faces crowd_cam (Some vga)) = 2%nat
  /\ is_valid (process_frame crowd_cam (Some vga)) = false
  /\ face_count (process_frame crowd_cam (Some vga)) = None
  /\ ~ (exists n, face_count (process_frame crowd_cam (Some vga)) = Some n).
Proof.
  repeat split; try (vm_compute; reflexivity).
  intros [n Hn]. vm_compute in Hn. discriminate.
Qed.

(** C4: the second of three records is corrupt; the first and the third
    deserialize, yet neither is in the rebuilt index. *)
Lemma corrupt_record_aborts_rebuild :
  (exists enc, loads good_blob = Ok enc)
  /\ loads bad_blob = Raise UnpicklingError
  /\ dict_mem (known_faces (load_known_faces loads solo_cam table)) 1
     = false
  /\ dict_mem (known_faces (load_known_faces loads solo_cam table)) 3
     = false.
Proof.
  split; [eexists; reflexivity|]. repeat split; vm_compute; reflexivity.
Qed.

(** C6: the record of user 2 is inactive and user 2 is in the rebuilt
    index. *)
Lemma inactive_record_is_loaded :
  (forall p, In p table_inactive -> user_id p = 2 -> is_active p = false)
  /\ dict_mem
       (known_faces (load_known_faces loads solo_cam table_inactive)) 2
     = true.
Proof.
  split; [|vm_compute; reflexivity].
  intros p [<-|[<-|[<-|[]]]]; cbn; intros H; try reflexivity;
    discriminate.
Qed.

(** C5: the frame has no rows. With a location supplied the network
    would be given the frame and would return the enrolled embedding, yet
    both entry points refuse the frame: the empty-image check is applied
    on this path too, by [get_face_embedding]. On a frame that is not
    empty the same location is matched. *)
Lemma empty_frame_is_refused_with_location :
  frame_empty (Some blank) = true
  /\ (exists raw, resnet solo_cam blank left_face = Ok (Some raw))
  /\ get_face_embedding solo_cam (Some blank) left_face = None
  /\ identify_user solo_cam defaults (Some blank) (Some left_face) = None
  /\ verify_user_face solo_cam defaults 7 (Some blank) (Some left_face)
     = false
  /\ identify_user solo_cam defaults (Some vga) (Some left_face) = Some 7
  /\ verify_user_face solo_cam defaults 7 (Some vga) (Some left_face)
     = true.
Proof.
  split; [reflexivity|]. split; [eexists; reflexivity|].
  repeat split; vm_compute; reflexivity.
Qed.

End Instances.

(** ** Further properties of the recognizer *)

Lemma feq_sym (x y : float) : feq x y = true -> feq y x = true.
Proof.
  unfold feq, fcompare.
  destruct (value x) as [| |p|], (value y) as [| |q|];
    cbn; try discriminate; try reflexivity.
  destruct (Qcompare p q) eqn:Hpq; try discriminate.
  rewrite (qcompare_flip p q Eq Hpq). reflexivity.
Qed.

Lemma flt_not_feq (x y : float) : flt x y = true -> feq x y = false.
Proof.
  unfold feq, flt.
  destruct (fcompare x y) as [[| |]|]; try discriminate; reflexivity.
Qed.

Lemma value_nan (x : float) : value x = NotANumber <-> is_nan x = true.
Proof.
  destruct x as [s|[|]| |s m e]; cbn; split; intros H;
    try discriminate; try reflexivity.
Qed.

Lemma flt_not_nan (x y : float) :
  flt x y = true -> is_nan x = false /\ is_nan y = false.
Proof.
  unfold flt, fcompare. intros H.
  split.
  - destruct (is_nan x) eqn:Hx; [|reflexivity].
    apply value_nan in Hx. rewrite Hx in H. discriminate.
  - destruct (is_nan y) eqn:Hy; [|reflexivity].
    apply value_nan in Hy. rewrite Hy in H.
    destruct (value x); discriminate.
Qed.

Lemma flt_total (x y : float) :
  is_nan x = false -> is_nan y = false ->
  flt x y = true \/ feq x y = true \/ flt y x = true.
Proof.
  intros Hx Hy. unfold feq, flt, fcompare.
  destruct (value x) as [| |p|] eqn:Hvx.
  - apply value_nan in Hvx. rewrite Hvx in Hx. discriminate.
  - destruct (value y) as [| |q|] eqn:Hvy; cbn; try tauto.
    apply value_nan in Hvy. rewrite Hvy in Hy. discriminate.
  - destruct (value y) as [| |q|] eqn:Hvy; cbn; try tauto.
    + apply value_nan in Hvy. rewrite Hvy in Hy. discriminate.
    + destruct (Qcompare p q) eqn:Hpq; try tauto.
      rewrite (qcompare_flip p q Gt Hpq). cbn. tauto.
  - destruct (value y) as [| |q|] eqn:Hvy; cbn; try tauto.
    apply value_nan in Hvy. rewrite Hvy in Hy. discriminate.
Qed.

Section MoreRecognition.

Context {fmt : FloatFormat} {blas : Blas}.

(** *** Detection *)

(** X1: every box that [detect_faces] returns was reported by the detector on
    a non-empty frame with a probability strictly above 0.95. *)
Theorem detect_faces_above_floor self f b :
  In b (detect_faces self f) ->
  exists img boxes_probs p,
    f = Some img /\ size img <> 0
    /\ mtcnn self img = Ok (Some boxes_probs)
    /\ In (b, p) boxes_probs
    /\ fgt p lit_0_95 = true.
Proof.
  unfold detect_faces.
  destruct f as [img|]; cbn [try_except]; [|intros []].
  destruct (size img =? 0) eqn:Hsize; cbn [try_except]; [intros []|].
  destruct (mtcnn self img) as [[bps|]|e] eqn:Hdet;
    cbn [bind try_except]; try (intros []).
  intros Hin. apply in_map_iff in Hin. destruct Hin as ([b' p] & Hb & Hin).
  cbn [fst] in Hb. subst b'.
  apply filter_In in Hin. destruct Hin as [Hin Hp]. cbn [snd] in Hp.
  exists img, bps, p. repeat split; try assumption.
  apply Z.eqb_neq. assumption.
Qed.

(** X2: when the detector raises or returns nothing on a non-empty frame, the
    validator reports that no face was detected, not an error, and both
    entry points called without a location give their negative answer. *)
Theorem detector_failure_reads_as_no_face self settings uid img :
  size img <> 0 ->
  (mtcnn self img = Ok None \/ exists e, mtcnn self img = Raise e) ->
  process_frame self (Some img) =
  rejected "No faces detected. Please ensure your face is visible and well-lit"
  /\ identify_user self settings (Some img) None = None
  /\ verify_user_face self settings uid (Some img) None = false.
Proof.
  intros Hsize Hfail.
  assert (Hboxes : detect_faces self (Some img) = []).
  { unfold detect_faces. apply Z.eqb_neq in Hsize. rewrite Hsize.
    destruct Hfail as [->|[e ->]]; reflexivity. }
  pose proof (process_frame_none self img Hsize Hboxes) as Hpf.
  split; [exact Hpf|]. split.
  - rewrite identify_user_eq. unfold located_embedding. rewrite Hpf.
    destruct (known_faces self); reflexivity.
  - rewrite verify_user_face_eq. unfold located_embedding. rewrite Hpf.
    destruct (dict_get (known_faces self) uid); reflexivity.
Qed.

(** X3: a frame is accepted exactly when it is non-empty, one box is detected
    and that box passes the height and the width check; the verdict then
    carries that box. *)
Theorem process_frame_valid_iff self f :
  is_valid (process_frame self f) = true <->
  exists img b,
    f = Some img /\ size img <> 0
    /\ detect_faces self f = [b]
    /\ too_short img b = false /\ too_narrow img b = false
    /\ face_location (process_frame self f) = Some b.
Proof.
  split.
  - destruct (frame_empty f) eqn:Hempty.
    { rewrite (process_frame_empty self f Hempty). discriminate. }
    destruct f as [img|]; cbn [frame_empty] in Hempty; [|discriminate].
    apply Z.eqb_neq in Hempty.
    destruct (detect_faces self (Some img)) as [|b [|b' rest]] eqn:Hboxes.
    + rewrite (process_frame_none self img Hempty Hboxes). discriminate.
    + rewrite (process_frame_single self img b Hempty Hboxes).
      destruct (too_short img b) eqn:Hs; [discriminate|].
      destruct (too_narrow img b) eqn:Hn; [discriminate|].
      intros _. exists img, b. repeat split; assumption.
    + rewrite (process_frame_many self img Hempty); [discriminate|].
      rewrite Hboxes. cbn [List.length]. lia.
  - intros (img & b & -> & Hsize & Hboxes & Hs & Hn & _).
    rewrite (process_frame_single self img b Hsize Hboxes), Hs, Hn.
    reflexivity.
Qed.

(** X4: an absent or empty frame is refused by both entry points, with or
    without a supplied location. *)
Theorem empty_frame_never_matches self settings uid f location :
  frame_empty f = true ->
  identify_user self settings f location = None
  /\ verify_user_face self settings uid f location = false.
Proof.
  intros Hempty.
  assert (Hloc : located_embedding self f location = Ok None).
  { unfold located_embedding. destruct location as [loc|].
    - unfold get_face_embedding. destruct f as [img|]; [|reflexivity].
      cbn [frame_empty] in Hempty. rewrite Hempty. reflexivity.
    - rewrite (process_frame_empty self f Hempty). reflexivity. }
  split.
  - rewrite identify_user_eq, Hloc. destruct (known_faces self); reflexivity.
  - rewrite verify_user_face_eq, Hloc.
    destruct (dict_get (known_faces self) uid); reflexivity.
Qed.

(** *** Dimension of the embeddings *)

Lemma np_dot_length (a b : embedding) :
  (exists s, np_dot a b = Ok s) <-> List.length a = List.length b.
Proof.
  unfold np_dot.
  destruct (Nat.eqb_spec (List.length a) (List.length b)) as [Heq|Hne].
  - split; [intros _; exact Heq|intros _; eexists; reflexivity].
  - split; [intros [s Hs]; discriminate|intros Heq; contradiction].
Qed.

Lemma compare_known_mismatch query items :
  forall bm bs uid data,
    In (uid, data) items ->
    List.length (encoding data) <> List.length query ->
    exists e, compare_known query items bm bs = Raise e.
Proof.
  induction items as [|[u d] rest IH]; intros bm bs uid data Hin Hlen;
    [destruct Hin|].
  cbn [compare_known].
  destruct (np_dot query (encoding d)) as [sim|e] eqn:Hdot; cbn [bind];
    [|eexists; reflexivity].
  destruct Hin as [Heq|Hin].
  - injection Heq as -> ->. exfalso. apply Hlen. symmetry.
    apply np_dot_length. exists sim. assumption.
  - destruct (fgt sim bs); eapply IH; eassumption.
Qed.

(** X5: one enrolled embedding whose length differs from the query's makes
    identification answer [None] for everybody, and verification of that
    identity answer [false]. *)
Theorem dimension_mismatch_disables_matching self settings f location
    query uid data :
  located_embedding self f location = Ok (Some query) ->
  List.length (encoding data) <> List.length query ->
  (In (uid, data) (known_faces self) ->
   identify_user self settings f location = None)
  /\
  (dict_get (known_faces self) uid = Some data ->
   verify_user_face self settings uid f location = false).
Proof.
  intros Hq Hlen. split.
  - intros Hin. rewrite identify_user_eq, Hq.
    destruct (known_faces self) as [|kv rest] eqn:Hk; [reflexivity|].
    rewrite <- Hk in Hin |- *. cbn [bind].
    destruct (compare_known_mismatch query (known_faces self) None
                (of_int (-1)) uid data Hin Hlen) as [e ->].
    reflexivity.
  - intros Hget. rewrite verify_user_face_eq, Hget, Hq. cbn [bind].
    destruct (np_dot query (encoding data)) as [s|e] eqn:Hdot;
      [|reflexivity].
    exfalso. apply Hlen. symmetry. apply np_dot_length. exists s. assumption.
Qed.

End MoreRecognition.

Section MoreMatching.

Context {fmt : FloatFormat} {blas : Blas}.

(** *** Which entry wins *)

(** The loop keeps the first entry that reaches the final best similarity:
    every entry before it has a similarity different from it. *)
Lemma compare_known_first query items :
  forall bm bs bm' bs',
    compare_known query items bm bs = Ok (bm', bs') ->
    (bm' = bm /\ bs' = bs) \/
    (exists pre uid data post,
       items = (pre ++ (uid, data) :: post)%list
       /\ bm' = Some uid
       /\ np_dot query (encoding data) = Ok bs'
       /\ flt bs bs' = true
       /\ forall v d s',
            In (v, d) pre -> np_dot query (encoding d) = Ok s' ->
            feq s' bs' = false).
Proof.
  induction items as [|[uid data] rest IH]; intros bm bs bm' bs' Hrun.
  - cbn in Hrun. injection Hrun as <- <-. left. split; reflexivity.
  - cbn [compare_known] in Hrun.
    destruct (np_dot query (encoding data)) as [sim|e] eqn:Hdot;
      cbn [bind] in Hrun; [|discriminate].
    destruct (fgt sim bs) eqn:Hgt.
    + change (flt bs sim = true) in Hgt. right.
      destruct (IH _ _ _ _ Hrun)
        as [[-> ->]|(pre & u & d & post & -> & -> & Hd & Hlt & Hpre)].
      * exists [], uid, data, rest.
        repeat split; try assumption. intros v d s' [].
      * exists ((uid, data) :: pre), u, d, post.
        repeat split; try assumption.
        -- exact (flt_trans _ _ _ Hgt Hlt).
        -- intros v d0 s' [Heq|Hin] Hd0; [|exact (Hpre v d0 s' Hin Hd0)].
           injection Heq as <- <-. rewrite Hdot in Hd0. injection Hd0 as <-.
           apply flt_not_feq. assumption.
    + change (flt bs sim = false) in Hgt.
      destruct (IH _ _ _ _ Hrun)
        as [Hsame|(pre & u & d & post & -> & -> & Hd & Hlt & Hpre)];
        [left; exact Hsame|].
      right. exists ((uid, data) :: pre), u, d, post.
      repeat split; try assumption.
      intros v d0 s' [Heq|Hin] Hd0; [|exact (Hpre v d0 s' Hin Hd0)].
      injection Heq as <- <-. rewrite Hdot in Hd0. injection Hd0 as <-.
      destruct (feq sim bs') eqn:Heq'; [|reflexivity].
      rewrite <- Hgt. symmetry.
      exact (feq_flt_r _ _ _ (feq_sym _ _ Heq') Hlt).
Qed.

(** X6: identification returns the first identity, in the order of the index,
    whose similarity is the largest: no entry before the returned one has
    an equal similarity and no entry at all has a larger one. *)
Theorem identify_user_first_maximum self settings f location uid :
  identify_user self settings f location = Some uid ->
  exists query pre data post s,
    located_embedding self f location = Ok (Some query)
    /\ known_faces self = (pre ++ (uid, data) :: post)%list
    /\ np_dot query (encoding data) = Ok s
    /\ (forall v d s',
          In (v, d) pre -> np_dot query (encoding d) = Ok s' ->
          feq s' s = false)
    /\ unsurpassed query (known_faces self) s.
Proof.
  rewrite identify_user_eq.
  destruct (known_faces self) as [|kv rest] eqn:Hk; [discriminate|].
  rewrite <- Hk. clear Hk kv rest.
  destruct (located_embedding self f location) as [[query|]|e];
    cbn [bind try_except]; try discriminate.
  destruct (compare_known query (known_faces self) None (of_int (-1)))
    as [[bm bs]|e] eqn:Hrun; cbn [bind try_except fst snd];
    [|discriminate].
  destruct (fgt bs (threshold settings)); cbn [try_except];
    [|discriminate].
  intros ->.
  destruct (compare_known_spec _ _ _ _ _ _ Hrun) as (_ & _ & Hmax).
  destruct (compare_known_first _ _ _ _ _ _ Hrun)
    as [[Hnone _]|(pre & u & d & post & Hitems & Hu & Hd & _ & Hpre)];
    [discriminate|].
  injection Hu as <-.
  exists query, pre, d, post, bs. repeat split; assumption.
Qed.

(** *** When identification succeeds *)

Lemma compare_known_runs query items :
  (forall uid data, In (uid, data) items ->
                    List.length (encoding data) = List.length query) ->
  forall bm bs, exists bm' bs', compare_known query items bm bs = Ok (bm', bs').
Proof.
  induction items as [|[uid data] rest IH]; intros Hlen bm bs.
  - exists bm, bs. reflexivity.
  - cbn [compare_known].
    destruct (proj2 (np_dot_length query (encoding data))) as [sim ->].
    { symmetry. apply (Hlen uid data). left. reflexivity. }
    cbn [bind].
    assert (Hrest : forall u d, In (u, d) rest ->
                                List.length (encoding d) = List.length query).
    { intros u d Hin. apply (Hlen u d). right. assumption. }
    destruct (fgt sim bs); apply IH; assumption.
Qed.

(** X7: when an embedding is obtained, every enrolled embedding has its length,
    and some entry has a similarity above the threshold and above -1,
    identification returns an identity. *)
Theorem identify_user_complete self settings f location query uid data s :
  located_embedding self f location = Ok (Some query) ->
  (forall v d, In (v, d) (known_faces self) ->
               List.length (encoding d) = List.length query) ->
  In (uid, data) (known_faces self) ->
  np_dot query (encoding data) = Ok s ->
  fgt s (threshold settings) = true ->
  fgt s (of_int (-1)) = true ->
  exists winner, identify_user self settings f location = Some winner.
Proof.
  intros Hq Hlen Hin Hdot Hgt Hfloor.
  rewrite identify_user_eq, Hq.
  destruct (known_faces self) as [|kv rest] eqn:Hk; [destruct Hin|].
  rewrite <- Hk in Hin, Hlen |- *. clear Hk kv rest. cbn [bind].
  destruct (compare_known_runs query (known_faces self) Hlen None
              (of_int (-1))) as (bm & bs & Hrun).
  rewrite Hrun. cbn [bind fst snd].
  destruct (compare_known_spec _ _ _ _ _ _ Hrun) as (Hmono & Hwho & Hmax).
  pose proof (Hmax uid data s Hin Hdot) as Hle.
  change (flt bs s = false) in Hle.
  change (flt (threshold settings) s = true) in Hgt.
  change (flt (of_int (-1)) s = true) in Hfloor.
  assert (Hup : flt (of_int (-1)) bs = true).
  { destruct Hmono as [->|Hlt]; [|exact Hlt].
    rewrite Hfloor in Hle. discriminate. }
  assert (Hbs : fgt bs (threshold settings) = true).
  { change (flt (threshold settings) bs = true).
    destruct (flt_not_nan _ _ Hup) as [_ Hbsn].
    destruct (flt_not_nan _ _ Hgt) as [_ Hsn].
    destruct (flt_total bs s Hbsn Hsn) as [Hlt|[Heq|Hlt]].
    - rewrite Hlt in Hle. discriminate.
    - exact (feq_flt_r _ _ _ (feq_sym _ _ Heq) Hgt).
    - exact (flt_trans _ _ _ Hgt Hlt). }
  rewrite Hbs. cbn [try_except].
  destruct Hwho as [[-> ->]|(u & d & -> & _)].
  - rewrite flt_irrefl in Hup. discriminate.
  - exists u. reflexivity.
Qed.

(** *** Identification and verification agree *)

Lemma unique_keys_lookup (d : dict) k data :
  unique_keys d -> In (k, data) d -> dict_get d k = Some data.
Proof.
  unfold unique_keys.
  induction d as [|[k0 v0] rest IH]; intros Huniq Hin; [destruct Hin|].
  cbn [map fst] in Huniq. inversion Huniq as [|? ? Hnotin Hrest]; subst.
  cbn [dict_get]. destruct Hin as [Heq|Hin].
  - injection Heq as -> ->. rewrite Z.eqb_refl. reflexivity.
  - destruct (k0 =? k) eqn:Hk; [|apply IH; assumption].
    apply Z.eqb_eq in Hk. subst k0. exfalso. apply Hnotin.
    apply in_map_iff. exists (k, data). split; [reflexivity|assumption].
Qed.

(** X8: on an index with distinct keys, the identity that identification
    returns for a frame passes verification on the same frame. *)
Theorem identified_user_verifies self settings f location uid :
  unique_keys (known_faces self) ->
  identify_user self settings f location = Some uid ->
  verify_user_face self settings uid f location = true.
Proof.
  intros Huniq Hid.
  destruct (identify_user_some _ _ _ _ _ Hid)
    as (query & data & s & Hq & Hin & Hdot & _ & Hgt).
  rewrite verify_user_face_eq, (unique_keys_lookup _ _ _ Huniq Hin), Hq.
  cbn [bind]. rewrite Hdot. cbn [bind try_except]. exact Hgt.
Qed.

End MoreMatching.

Section MoreRebuild.

Context {fmt : FloatFormat} {blas : Blas}.
Variable pickle_loads : bytes -> exc embedding.

Lemma in_dict_set (d : dict) k v k' v' :
  In (k', v') (dict_set d k v) -> (k', v') = (k, v) \/ In (k', v') d.
Proof.
  induction d as [|[k0 v0] rest IH]; cbn [dict_set].
  - intros [Heq|[]]. left. symmetry. assumption.
  - destruct (k0 =? k).
    + intros [Heq|Hin]; [left; symmetry; assumption|right; right; assumption].
    + intros [Heq|Hin]; [right; left; assumption|].
      destruct (IH Hin) as [Heq|Hin']; [left|right; right]; assumption.
Qed.

Lemma dict_set_unique (d : dict) k v :
  unique_keys d -> unique_keys (dict_set d k v).
Proof.
  unfold unique_keys.
  induction d as [|[k0 v0] rest IH]; cbn [dict_set map fst]; intros Huniq.
  - constructor; [intros []|constructor].
  - inversion Huniq as [|? ? Hnotin Hrest]; subst.
    destruct (k0 =? k) eqn:Hk; cbn [map fst].
    + apply Z.eqb_eq in Hk. subst k0. constructor; assumption.
    + apply Z.eqb_neq in Hk. constructor; [|apply IH; assumption].
      intros Hin. apply in_map_iff in Hin. destruct Hin as ([k1 v1] & Hk1 & Hin).
      cbn [fst] in Hk1. subst k1.
      destruct (in_dict_set _ _ _ _ _ Hin) as [Heq|Hin'].
      * injection Heq as -> _. apply Hk. reflexivity.
      * apply Hnotin. apply in_map_iff. exists (k0, v1).
        split; [reflexivity|assumption].
Qed.

Lemma load_profiles_well_formed profiles :
  forall faces d,
    load_profiles pickle_loads profiles faces = Ok d ->
    unique_keys faces -> keyed_by_user faces ->
    unique_keys d /\ keyed_by_user d.
Proof.
  induction profiles as [|q rest IH]; intros faces d Hrun Huniq Hkeyed.
  - cbn in Hrun. injection Hrun as <-. split; assumption.
  - cbn [load_profiles] in Hrun.
    destruct (truthy (face_encoding q)); [|eapply IH; eassumption].
    destruct (pickle_loads
                match face_encoding q with Some b0 => b0 | None => [] end)
      as [enc|e]; cbn [bind] in Hrun; [|discriminate].
    apply (IH _ _ Hrun); [apply dict_set_unique; assumption|].
    intros k data Hin.
    destruct (in_dict_set _ _ _ _ _ Hin) as [Heq|Hin'].
    + injection Heq as -> ->. reflexivity.
    + apply Hkeyed. assumption.
Qed.

(** X9: whatever the table holds, the rebuilt index has pairwise distinct keys
    and every entry records the user id it is stored under. *)
Theorem load_known_faces_well_formed self profiles :
  unique_keys (known_faces (load_known_faces pickle_loads self profiles))
  /\ keyed_by_user (known_faces (load_known_faces pickle_loads self profiles)).
Proof.
  unfold load_known_faces.
  destruct (load_profiles pickle_loads profiles []) as [d|e] eqn:Hrun;
    cbn [bind try_except set_known_faces known_faces].
  - apply (load_profiles_well_formed profiles [] d Hrun).
    + constructor.
    + intros k data [].
  - split; [constructor|intros k data []].
Qed.

Lemma load_profiles_other profiles :
  forall faces d uid,
    load_profiles pickle_loads profiles faces = Ok d ->
    ~ In uid (map user_id profiles) ->
    dict_get d uid = dict_get faces uid.
Proof.
  induction profiles as [|q rest IH]; intros faces d uid Hrun Hnotin.
  - cbn in Hrun. injection Hrun as <-. reflexivity.
  - cbn [load_profiles] in Hrun. cbn [map] in Hnotin.
    assert (Hq : user_id q <> uid) by (intros Heq; apply Hnotin; left; exact Heq).
    assert (Hrest : ~ In uid (map user_id rest))
      by (intros Hin; apply Hnotin; right; exact Hin).
    destruct (truthy (face_encoding q)); [|eapply IH; eassumption].
    destruct (pickle_loads
                match face_encoding q with Some b0 => b0 | None => [] end)
      as [enc|e]; cbn [bind] in Hrun; [|discriminate].
    rewrite (IH _ _ uid Hrun Hrest), dict_get_set.
    apply Z.eqb_neq in Hq. rewrite Hq. reflexivity.
Qed.

Lemma load_profiles_lookup profiles :
  forall faces d p b enc,
    NoDup (map user_id profiles) ->
    load_profiles pickle_loads profiles faces = Ok d ->
    In p profiles -> stored p b -> pickle_loads b = Ok enc ->
    dict_get d (user_id p) =
    Some {| encoding := enc; entry_user_id := user_id p |}.
Proof.
  induction profiles as [|q rest IH];
    intros faces d p b enc Hnodup Hrun Hin Hst Hdec; [destruct Hin|].
  cbn [map] in Hnodup. inversion Hnodup as [|? ? Hfresh Hrest]; subst.
  cbn [load_profiles] in Hrun.
  destruct Hin as [->|Hin].
  - destruct Hst as [Hb Ht]. rewrite Ht, Hb, Hdec in Hrun. cbn [bind] in Hrun.
    rewrite (load_profiles_other rest _ d (user_id p) Hrun Hfresh).
    rewrite dict_get_set, Z.eqb_refl. reflexivity.
  - destruct (truthy (face_encoding q));
      [|exact (IH _ _ p b enc Hrest Hrun Hin Hst Hdec)].
    destruct (pickle_loads
                match face_encoding q with Some b0 => b0 | None => [] end)
      as [enc0|e]; cbn [bind] in Hrun; [|discriminate].
    exact (IH _ _ p b enc Hrest Hrun Hin Hst Hdec).
Qed.

(** X10: with one record per user and every stored descriptor deserializing,
    the rebuilt index maps the user of each record with a non-empty
    descriptor to the embedding that descriptor deserializes to. *)
Theorem load_known_faces_lookup self profiles p b enc :
  NoDup (map user_id profiles) ->
  (forall q c, In q profiles -> stored q c ->
               exists e, pickle_loads c = Ok e) ->
  In p profiles -> stored p b -> pickle_loads b = Ok enc ->
  dict_get (known_faces (load_known_faces pickle_loads self profiles))
           (user_id p) =
  Some {| encoding := enc; entry_user_id := user_id p |}.
Proof.
  intros Hnodup Hok Hin Hst Hdec. unfold load_known_faces.
  destruct (load_profiles_sound pickle_loads profiles [] Hok)
    as (d & Hrun & _).
  rewrite Hrun. cbn [bind try_except set_known_faces known_faces].
  exact (load_profiles_lookup profiles [] d p b enc Hnodup Hrun Hin Hst Hdec).
Qed.

End MoreRebuild.

(** ** Properties of the views *)

Section AttendanceViews.

Import Models.

(** *** Status of a mark-in *)

(** X11: for a time of day in range, the status is ["PRESENT"] up to 09:30:00
    sharp, that is 34,200,000,000 microseconds after midnight, and
    ["LATE"] from the next microsecond on. *)
Theorem determine_attendance_status_cutoff (t : time) :
  time_valid t ->
  (micros t <= 34200000000 ->
   Views.determine_attendance_status t = "PRESENT")
  /\ (34200000000 < micros t ->
      Views.determine_attendance_status t = "LATE").
Proof.
  unfold time_valid, micros, Views.determine_attendance_status, time_leb,
    time_compare.
  destruct t as [h m s us]; cbn [hour minute second microsecond].
  intros (Hh & Hm & Hs & Hus).
  destruct (Z.compare_spec h 9) as [->|Hlt|Hgt].
  - destruct (Z.compare_spec m 30) as [->|Hlt|Hgt].
    + destruct (Z.compare_spec s 0) as [->|Hlt|Hgt].
      * destruct (Z.compare_spec us 0); split; intros; try reflexivity; lia.
      * lia.
      * split; intros; try reflexivity; lia.
    + split; intros; try reflexivity; nia.
    + split; intros; try reflexivity; nia.
  - split; intros; try reflexivity; nia.
  - split; intros; try reflexivity; nia.
Qed.

(** *** Client address *)

Lemma before_comma_spec (h : string) :
  has_comma (Views.before_comma h) = false
  /\ (h = Views.before_comma h
      \/ exists rest, h = Views.before_comma h ++ "," ++ rest).
Proof.
  induction h as [|c rest [IHc IHs]]; cbn [Views.before_comma].
  - split; [reflexivity|left; reflexivity].
  - destruct (Ascii.eqb c ",") eqn:Hc.
    + split; [reflexivity|]. right. exists rest.
      apply Ascii.eqb_eq in Hc. subst c. reflexivity.
    + cbn [has_comma]. rewrite Hc, IHc. split; [reflexivity|].
      destruct IHs as [Heq|[tail Heq]].
      * left. rewrite <- Heq. reflexivity.
      * right. exists tail. rewrite Heq at 1. reflexivity.
Qed.

(** X12: when the forwarding header is present and non-empty, the client
    address is its first comma-separated element: it holds no comma and
    the header is that element alone or that element, a comma and the
    rest. [REMOTE_ADDR] is then not consulted. *)
Theorem get_client_ip_first_hop (request : Views.HttpRequest) (h : string) :
  Views.HTTP_X_FORWARDED_FOR request = Some h ->
  h <> "" ->
  exists ip,
    Views.get_client_ip request = Some ip
    /\ has_comma ip = false
    /\ (h = ip \/ exists rest, h = ip ++ "," ++ rest).
Proof.
  intros Hh Hne. unfold Views.get_client_ip. rewrite Hh.
  destruct h as [|c rest]; [contradiction Hne; reflexivity|].
  exists (Views.before_comma (String c rest)).
  split; [reflexivity|]. apply before_comma_spec.
Qed.

(** *** Roles *)

(** X13: a head of department is never an administrator, and whoever passes
    [is_admin_user] is an administrator for the model as well. *)
Theorem roles_are_consistent (u : User) :
  (is_hod u = true -> is_admin u = false)
  /\ (Views.is_admin_user u = true ->
      is_admin u = true /\ is_hod u = false).
Proof.
  unfold is_hod, is_admin, Views.is_admin_user. cbn [existsb]. split.
  - intros Hhod. apply String.eqb_eq in Hhod. rewrite Hhod. reflexivity.
  - intros Hadm. apply andb_true_iff in Hadm. destruct Hadm as [_ Hpos].
    apply String.eqb_eq in Hpos. rewrite Hpos. split; reflexivity.
Qed.

(** *** Looking up today's row *)

Lemma first_from_some rows :
  forall i u d best j r,
    Views.first_from i rows u d best = Some (j, r) ->
    best = Some (j, r)
    \/ ((i <= j)%nat /\ nth_error rows (j - i) = Some r
        /\ Views.same_day u d r = true).
Proof.
  induction rows as [|x rest IH]; intros i u d best j r Hrun;
    cbn [Views.first_from] in Hrun.
  - left. assumption.
  - assert (Hshift : forall k, (S i <= k)%nat ->
              nth_error rest (k - S i) = Some r ->
              nth_error (x :: rest) (k - i) = Some r).
    { intros k Hk Hnth. replace (k - i)%nat with (S (k - S i)) by lia.
      exact Hnth. }
    assert (Hhere : Views.same_day u d x = true ->
              Some (i, x) = Some (j, r) ->
              (i <= j)%nat /\ nth_error (x :: rest) (j - i) = Some r
              /\ Views.same_day u d r = true).
    { intros Hsame Heq. injection Heq as <- <-.
      rewrite Nat.sub_diag. repeat split; [lia|assumption]. }
    destruct (Views.same_day u d x) eqn:Hsame.
    + destruct best as [[bi b]|].
      * destruct (time_ltb (time_in b) (time_in x)).
        -- destruct (IH _ _ _ _ _ _ Hrun) as [Heq|(Hle & Hnth & Hs)].
           ++ right. apply Hhere; [reflexivity|assumption].
           ++ right. repeat split; [lia|apply Hshift; assumption|assumption].
        -- destruct (IH _ _ _ _ _ _ Hrun) as [Heq|(Hle & Hnth & Hs)];
             [left; assumption|].
           right. repeat split; [lia|apply Hshift; assumption|assumption].
      * destruct (IH _ _ _ _ _ _ Hrun) as [Heq|(Hle & Hnth & Hs)].
        -- right. apply Hhere; [reflexivity|assumption].
        -- right. repeat split; [lia|apply Hshift; assumption|assumption].
    + destruct (IH _ _ _ _ _ _ Hrun) as [Heq|(Hle & Hnth & Hs)];
        [left; assumption|].
      right. repeat split; [lia|apply Hshift; assumption|assumption].
Qed.

Lemma first_from_none rows :
  forall i u d best,
    Views.first_from i rows u d best = None <->
    best = None /\ forall r, In r rows -> Views.same_day u d r = false.
Proof.
  induction rows as [|x rest IH]; intros i u d best;
    cbn [Views.first_from].
  - split; [intros ->; split; [reflexivity|intros r []]|intros [-> _]].
    reflexivity.
  - destruct (Views.same_day u d x) eqn:Hsame.
    + split.
      * intros Hrun. exfalso.
        destruct best as [[bi b]|];
          [destruct (time_ltb (time_in b) (time_in x))|];
          apply IH in Hrun; destruct Hrun as [Hbest _]; discriminate.
      * intros [_ Hall]. rewrite (Hall x (or_introl eq_refl)) in Hsame.
        discriminate.
    + rewrite IH. split; intros [Hbest Hall]; (split; [assumption|]).
      * intros r [<-|Hin]; [assumption|apply Hall; assumption].
      * intros r Hin. apply Hall. right. assumption.
Qed.

Lemma first_today_some table u d j r :
  Views.first_today table u d = Some (j, r) ->
  nth_error table j = Some r /\ Views.same_day u d r = true.
Proof.
  intros Hrun.
  destruct (first_from_some _ _ _ _ _ _ _ Hrun) as [Heq|(_ & Hnth & Hs)];
    [discriminate|].
  rewrite Nat.sub_0_r in Hnth. split; assumption.
Qed.

Lemma first_today_none table u d :
  Views.first_today table u d = None <->
  forall r, In r table -> Views.same_day u d r = false.
Proof.
  unfold Views.first_today. rewrite first_from_none.
  split; [intros [_ H]; exact H|intros H; split; [reflexivity|exact H]].
Qed.

End AttendanceViews.

Section AttendanceTable.

Import Models.

Local Abbreviation key := (fun r : Attendance => (user r, date r)).

Lemma same_day_key u d r :
  Views.same_day u d r = true <-> key r = (u, d).
Proof.
  unfold Views.same_day. rewrite andb_true_iff, !Z.eqb_eq.
  split; [intros [-> ->]; reflexivity|intros [= -> ->]; split; reflexivity].
Qed.

Lemma set_time_out_keys table :
  forall i t, map key (Views.set_time_out table i t) = map key table.
Proof.
  induction table as [|r rest IH]; intros [|i] t;
    cbn [Views.set_time_out map]; try reflexivity.
  rewrite IH. reflexivity.
Qed.

Lemma row_kept_refl r : row_kept r r.
Proof. repeat split. intros t Ht. exact Ht. Qed.

Lemma rows_kept_refl table : Forall2 row_kept table table.
Proof.
  induction table as [|r rest IH]; constructor;
    [apply row_kept_refl|assumption].
Qed.

Lemma set_time_out_kept table :
  forall i t r,
    nth_error table i = Some r -> time_out r = None ->
    Forall2 row_kept table (Views.set_time_out table i t).
Proof.
  induction table as [|x rest IH]; intros [|i] t r Hnth Hopen;
    cbn [nth_error] in Hnth; try discriminate;
    cbn [Views.set_time_out].
  - injection Hnth as ->. constructor; [|apply rows_kept_refl].
    repeat split. cbn [time_out]. intros t0 Ht0. rewrite Hopen in Ht0.
    discriminate.
  - constructor; [apply row_kept_refl|]. eapply IH; eassumption.
Qed.

Lemma set_time_out_changes table :
  forall i t r,
    nth_error table i = Some r -> time_out r = None ->
    Views.set_time_out table i t <> table.
Proof.
  induction table as [|x rest IH]; intros [|i] t r Hnth Hopen;
    cbn [nth_error] in Hnth; try discriminate;
    cbn [Views.set_time_out].
  - injection Hnth as ->. intros Heq. injection Heq as Heq.
    rewrite <- Heq in Hopen. discriminate.
  - intros Heq. injection Heq as Heq. exact (IH i t r Hnth Hopen Heq).
Qed.

Lemma nodup_snoc {A : Type} (l : list A) (x : A) :
  NoDup l -> ~ In x l -> NoDup (l ++ [x]).
Proof.
  induction l as [|y l IH]; intros Hnd Hnotin; cbn [app].
  - constructor; [intros []|constructor].
  - inversion Hnd as [|? ? Hy Hl]; subst. constructor.
    + intros Hin. apply in_app_or in Hin. destruct Hin as [Hin|[->|[]]].
      * exact (Hy Hin).
      * apply Hnotin. left. reflexivity.
    + apply IH; [assumption|]. intros Hin. apply Hnotin. right. assumption.
Qed.

Lemma one_per_day_same table r r' :
  one_per_day table -> In r table -> In r' table -> key r = key r' ->
  r = r'.
Proof.
  unfold one_per_day.
  induction table as [|x rest IH]; intros Hnd Hr Hr' Hkey; [destruct Hr|].
  cbn [map] in Hnd. inversion Hnd as [|? ? Hx Hrest]; subst.
  destruct Hr as [->|Hr], Hr' as [->|Hr'].
  - reflexivity.
  - exfalso. apply Hx. rewrite Hkey. apply (in_map key). assumption.
  - exfalso. apply Hx. rewrite <- Hkey. apply (in_map key). assumption.
  - apply IH; assumption.
Qed.

(** *** What a POST to [process_attendance] does to the table *)

(** X14: the table only grows, by at most one row, and the rows already there
    keep their user, day, time in, status and method; a time out that is
    set is never changed. *)
Theorem process_attendance_keeps_history table request today current_time
    ai_message :
  exists kept added,
    fst (Views.process_attendance table request today current_time
           ai_message) = (kept ++ added)%list
    /\ Forall2 row_kept table kept
    /\ (List.length added <= 1)%nat.
Proof.
  assert (Hsame : exists kept added,
            table = (kept ++ added)%list /\ Forall2 row_kept table kept
            /\ (List.length added <= 1)%nat).
  { exists table, []. rewrite app_nil_r.
    repeat split; [apply rows_kept_refl|cbn; lia]. }
  unfold Views.process_attendance.
  destruct (String.eqb (Views.http_method request) "POST"); [|exact Hsame].
  destruct (String.eqb _ "mark_out").
  - destruct (Views.first_today table (Views.request_user request) today)
      as [[i r]|] eqn:Hfirst; [|exact Hsame].
    destruct (time_out r) eqn:Hout; [exact Hsame|].
    cbn [fst]. exists (Views.set_time_out table i current_time), [].
    rewrite app_nil_r. repeat split; [|cbn; lia].
    apply first_today_some in Hfirst. destruct Hfirst as [Hnth _].
    eapply set_time_out_kept; eassumption.
  - destruct (String.eqb _ "mark_in"); [|exact Hsame].
    destruct (Views.first_today table (Views.request_user request) today)
      as [[i r]|]; [destruct (time_out r); exact Hsame|].
    cbn [fst]. eexists table, [_].
    repeat split; [apply rows_kept_refl|cbn; lia].
Qed.

(** X15: a table with at most one row per user and day still has at most one
    row per user and day after the request. *)
Theorem process_attendance_one_per_day table request today current_time
    ai_message :
  one_per_day table ->
  one_per_day (fst (Views.process_attendance table request today
                      current_time ai_message)).
Proof.
  intros Hone. unfold Views.process_attendance.
  destruct (String.eqb (Views.http_method request) "POST"); [|exact Hone].
  destruct (String.eqb _ "mark_out").
  - destruct (Views.first_today table (Views.request_user request) today)
      as [[i r]|]; [|exact Hone].
    destruct (time_out r); [exact Hone|].
    cbn [fst]. unfold one_per_day. rewrite set_time_out_keys. exact Hone.
  - destruct (String.eqb _ "mark_in"); [|exact Hone].
    destruct (Views.first_today table (Views.request_user request) today)
      as [[i r]|] eqn:Hfirst; [destruct (time_out r); exact Hone|].
    cbn [fst]. unfold one_per_day. rewrite map_app. cbn [map].
    apply nodup_snoc; [exact Hone|].
    cbn [user date]. intros Hin. apply in_map_iff in Hin.
    destruct Hin as (r & Hkey & Hin).
    pose proof (proj1 (first_today_none _ _ _) Hfirst r Hin) as Hno.
    apply same_day_key in Hkey. rewrite Hkey in Hno. discriminate.
Qed.

(** X16: once the user's row of the day has a time out, no request of that
    user on that day changes the table. *)
Theorem process_attendance_day_is_final table request today current_time
    ai_message r t :
  one_per_day table ->
  In r table ->
  user r = Views.request_user request -> date r = today ->
  time_out r = Some t ->
  fst (Views.process_attendance table request today current_time
         ai_message) = table.
Proof.
  intros Hone Hin Huser Hdate Hout. unfold Views.process_attendance.
  assert (Hkey : key r = (Views.request_user request, today))
    by (rewrite Huser, Hdate; reflexivity).
  assert (Hfirst : exists i,
            Views.first_today table (Views.request_user request) today
            = Some (i, r)).
  { destruct (Views.first_today table (Views.request_user request) today)
      as [[i r']|] eqn:Hfirst.
    - exists i. apply first_today_some in Hfirst.
      destruct Hfirst as [Hnth Hsame]. apply nth_error_In in Hnth.
      apply same_day_key in Hsame.
      rewrite (one_per_day_same table r r' Hone Hin Hnth); [reflexivity|].
      rewrite Hkey, Hsame. reflexivity.
    - pose proof (proj1 (first_today_none _ _ _) Hfirst r Hin) as Hno.
      apply same_day_key in Hkey. rewrite Hkey in Hno. discriminate. }
  destruct Hfirst as [i Hfirst].
  destruct (String.eqb (Views.http_method request) "POST"); [|reflexivity].
  destruct (String.eqb _ "mark_out").
  - rewrite Hfirst, Hout. reflexivity.
  - destruct (String.eqb _ "mark_in"); [|reflexivity].
    rewrite Hfirst, Hout. reflexivity.
Qed.

(** *** The marking page and the request it leads to *)

(** X17: for the actions ["mark_in"] and ["mark_out"], [mark_attendance] shows
    the marking page exactly when the POST of that action by the same user
    on the same day changes the table. *)
Theorem mark_page_matches_processing table get post today current_time
    ai_message action :
  Views.request_user get = Views.request_user post ->
  Views.GET_action get = Some action ->
  Views.POST_action post = Some action ->
  Views.http_method post = "POST" ->
  action = "mark_in" \/ action = "mark_out" ->
  offers_marking (Views.mark_attendance table get today) = true <->
  fst (Views.process_attendance table post today current_time ai_message)
  <> table.
Proof.
  intros Huser Hget Hpost Hmethod Haction.
  unfold Views.mark_attendance, Views.process_attendance.
  rewrite Hget, Hpost, Hmethod, Huser.
  assert (Hgrow : forall x : Attendance, (table ++ [x])%list <> table).
  { intros x Heq. apply (f_equal (@List.length _)) in Heq.
    rewrite length_app in Heq. cbn in Heq. lia. }
  destruct (Views.first_today table (Views.request_user post) today)
    as [[i r]|] eqn:Hfirst; cbn [option_map snd].
  - apply first_today_some in Hfirst. destruct Hfirst as [Hnth _].
    destruct Haction as [->| ->]; cbn [String.eqb Ascii.eqb Bool.eqb];
      cbn [fst offers_marking];
      destruct (time_out r) eqn:Hout; cbn [fst offers_marking].
    + split; [discriminate|intros H; contradiction H; reflexivity].
    + split; [discriminate|intros H; contradiction H; reflexivity].
    + split; [discriminate|intros H; contradiction H; reflexivity].
    + split; [intros _|reflexivity].
      eapply set_time_out_changes; eassumption.
  - destruct Haction as [->| ->]; cbn [String.eqb Ascii.eqb Bool.eqb];
      cbn [fst offers_marking].
    + split; [intros _; apply Hgrow|reflexivity].
    + split; [discriminate|intros H; contradiction H; reflexivity].
Qed.

(** *** A day's cycle *)

Lemma first_from_app l1 :
  forall l2 i u d best,
    Views.first_from i (l1 ++ l2) u d best =
    Views.first_from (i + List.length l1) l2 u d
      (Views.first_from i l1 u d best).
Proof.
  induction l1 as [|x rest IH]; intros l2 i u d best;
    cbn [app Views.first_from List.length].
  - rewrite Nat.add_0_r. reflexivity.
  - replace (i + S (List.length rest))%nat
      with (S i + List.length rest)%nat by lia.
    destruct (Views.same_day u d x); [|apply IH].
    destruct best as [[bi b]|]; [|apply IH].
    destruct (time_ltb (time_in b) (time_in x)); apply IH.
Qed.

Lemma set_time_out_last table :
  forall r t,
    Views.set_time_out (table ++ [r]) (List.length table) t =
    (table ++
     [{| user := user r; date := date r; time_in := time_in r;
         time_out := Some t; status := status r; method := method r |}])%list.
Proof.
  induction table as [|x rest IH]; intros r t;
    cbn [app List.length Views.set_time_out]; [reflexivity|].
  rewrite IH. reflexivity.
Qed.

(** X18: on a day for which the user has no row yet, a mark-in followed by a
    mark-out adds exactly one row: the user's, for that day, with both
    times, the status of the time in and the method ["FACE"]; both
    requests are answered with a success message. *)
Theorem mark_in_then_mark_out table req_in req_out today t1 t2 ai1 ai2 :
  (forall r, In r table ->
             Views.same_day (Views.request_user req_in) today r = false) ->
  Views.http_method req_in = "POST" ->
  Views.POST_action req_in = Some "mark_in" ->
  Views.http_method req_out = "POST" ->
  Views.POST_action req_out = Some "mark_out" ->
  Views.request_user req_out = Views.request_user req_in ->
  let marked_in := Views.process_attendance table req_in today t1 ai1 in
  let marked_out :=
    Views.process_attendance (fst marked_in) req_out today t2 ai2 in
  fst marked_out =
  (table ++
   [{| user := Views.request_user req_in; date := today;
       time_in := t1; time_out := Some t2;
       status := Views.determine_attendance_status t1;
       method := "FACE" |}])%list
  /\ map Views.level (snd marked_in) = ["success"]
  /\ map Views.level (snd marked_out) = ["success"].
Proof.
  intros Hnone Hm1 Ha1 Hm2 Ha2 Huser. cbv zeta.
  assert (Hin : Views.process_attendance table req_in today t1 ai1 =
    ((table ++
      [{| user := Views.request_user req_in; date := today;
          time_in := t1; time_out := None;
          status := Views.determine_attendance_status t1;
          method := "FACE" |}])%list,
     [{| Views.level := "success";
         Views.text := "Successfully marked in at "
                       ++ Views.strftime_I_M_p t1 ++ ". " ++ ai1 |}])).
  { unfold Views.process_attendance. rewrite Hm1, Ha1.
    rewrite (proj2 (first_today_none _ _ _) Hnone). reflexivity. }
  rewrite Hin. cbn [fst snd map Views.level].
  unfold Views.process_attendance. rewrite Hm2, Ha2, Huser.
  unfold Views.first_today. rewrite first_from_app.
  fold (Views.first_today table (Views.request_user req_in) today).
  rewrite (proj2 (first_today_none _ _ _) Hnone).
  cbn [Views.first_from]. unfold Views.same_day. cbn [user date].
  rewrite !Z.eqb_refl.
  cbn [andb time_out fst snd map Views.level String.eqb Ascii.eqb Bool.eqb].
  rewrite Nat.add_0_l, set_time_out_last. repeat split.
Qed.

End AttendanceTable.

Section ViewVerification.

Context {fmt : FloatFormat} {blas : Blas}.
Variable pickle_loads : bytes -> exc embedding.

Import Models.

Lemma view_verification_core face_recognizer settings now u f profile b
    data :
  face_profile u = Some profile ->
  stored profile b ->
  dict_get (known_faces face_recognizer) (id u) = Some data ->
  pickle_loads b = Ok (encoding data) ->
  Views.verify_user_face pickle_loads face_recognizer settings now u f =
  (verify_user_face face_recognizer settings (id u) f None,
   if verify_user_face face_recognizer settings (id u) f None
   then Some now else None).
Proof.
  intros Hprofile [Hb Ht] Hget Hdec.
  unfold Views.verify_user_face.
  rewrite Hprofile, Ht, Hb, verify_user_face_eq, Hget.
  unfold located_embedding. cbn [negb].
  destruct (process_frame_cases face_recognizer f) as [[msg ->]|[box ->]];
    cbn [is_valid rejected accepted negb face_count face_location bind
         try_except]; [reflexivity|].
  change (1 >? 1) with false. cbn [bind].
  destruct (get_face_embedding face_recognizer f box) as [query|];
    cbn [try_except bind]; [|reflexivity].
  rewrite Hdec. cbn [bind].
  destruct (np_dot query (encoding data)) as [s|e]; cbn [bind try_except];
    [|reflexivity].
  destruct (fgt s (threshold settings)); reflexivity.
Qed.

(** X19: when the index holds, for this user, the embedding that the user's
    stored descriptor deserializes to, the views' [verify_user_face]
    gives the answer of the recognizer's [verify_user_face] called for the
    user without a location, and writes [last_used], with the current
    time, exactly when that answer is [true]. *)
Theorem view_verification_agrees face_recognizer settings now u f profile b
    data :
  face_profile u = Some profile ->
  stored profile b ->
  dict_get (known_faces face_recognizer) (id u) = Some data ->
  pickle_loads b = Ok (encoding data) ->
  fst (Views.verify_user_face pickle_loads face_recognizer settings now u f)
  = verify_user_face face_recognizer settings (id u) f None
  /\ (verify_user_face face_recognizer settings (id u) f None = true ->
      snd (Views.verify_user_face pickle_loads face_recognizer settings now
             u f) = Some now)
  /\ (verify_user_face face_recognizer settings (id u) f None = false ->
      snd (Views.verify_user_face pickle_loads face_recognizer settings now
             u f) = None).
Proof.
  intros Hprofile Hst Hget Hdec.
  rewrite (view_verification_core _ settings now u f profile b data
             Hprofile Hst Hget Hdec).
  cbn [fst snd]. split; [reflexivity|].
  split; intros ->; reflexivity.
Qed.

(** X20: after a rebuild from a table with one record per user whose
    descriptors all deserialize, the two verifications agree for every
    user whose record is in the table with a non-empty descriptor. *)
Theorem view_verification_after_rebuild self settings now u f profiles
    profile b :
  NoDup (map user_id profiles) ->
  (forall q c, In q profiles -> stored q c ->
               exists e, pickle_loads c = Ok e) ->
  In profile profiles ->
  face_profile u = Some profile ->
  user_id profile = id u ->
  stored profile b ->
  fst (Views.verify_user_face pickle_loads
         (load_known_faces pickle_loads self profiles) settings now u f) =
  verify_user_face (load_known_faces pickle_loads self profiles) settings
    (id u) f None.
Proof.
  intros Hnodup Hok Hin Hprofile Hid Hst.
  destruct (Hok profile b Hin Hst) as [enc Hdec].
  destruct (load_profiles_sound pickle_loads profiles [] Hok)
    as (d & Hrun & _).
  pose proof (load_profiles_lookup pickle_loads profiles [] d profile b enc
                Hnodup Hrun Hin Hst Hdec) as Hget.
  rewrite Hid in Hget.
  assert (Hindex : known_faces (load_known_faces pickle_loads self profiles)
                   = d).
  { unfold load_known_faces. rewrite Hrun. reflexivity. }
  rewrite <- Hindex in Hget.
  rewrite (view_verification_core _ settings now u f profile b _
             Hprofile Hst Hget Hdec).
  reflexivity.
Qed.

End ViewVerification.

Section FaceLoginProperties.

Context {fmt : FloatFormat} {blas : Blas}.

Import Models.

(** The row that a first login of the day creates. *)
Local Abbreviation fresh_row u today now_time :=
  {| user := id u; date := today; time_in := now_time; time_out := None;
     status := Views.determine_attendance_status now_time;
     method := "FACE" |}.

Lemma recognise_user self settings imdecode users img_data u :
  Views.recognise self settings imdecode users img_data = Ok (inr u) ->
  exists img b,
    imdecode img_data = Ok (Some img)
    /\ process_frame self (Some img) = accepted b
    /\ identify_user self settings (Some img) (Some b) = Some (id u)
    /\ id u <> 0
    /\ In u users.
Proof.
  unfold Views.recognise.
  destruct (imdecode img_data) as [[img|]|e] eqn:Hdec; cbn [bind];
    try discriminate.
  destruct (process_frame_cases self (Some img)) as [[msg Hpf]|[b Hpf]];
    rewrite Hpf;
    cbn [is_valid rejected accepted negb face_count face_location error
         bind]; [discriminate|].
  change (1 >? 1) with false. cbn [bind].
  destruct (identify_user self settings (Some img) (Some b))
    as [[|uid|uid]|] eqn:Hid; try discriminate.
  - destruct (find (fun x => id x =? Z.pos uid) users) as [v|] eqn:Hfind;
      [|discriminate].
    intros [= ->]. apply find_some in Hfind. destruct Hfind as [Hin Hidu].
    apply Z.eqb_eq in Hidu. exists img, b. rewrite Hidu.
    repeat split; try assumption; try reflexivity. discriminate.
  - destruct (find (fun x => id x =? Z.neg uid) users) as [v|] eqn:Hfind;
      [|discriminate].
    intros [= ->]. apply find_some in Hfind. destruct Hfind as [Hin Hidu].
    apply Z.eqb_eq in Hidu. exists img, b. rewrite Hidu.
    repeat split; try assumption; try reflexivity. discriminate.
Qed.

Lemma recognise_failure self settings imdecode users img_data response :
  Views.recognise self settings imdecode users img_data = Ok (inl response)
  -> Views.success response = false.
Proof.
  unfold Views.recognise.
  destruct (imdecode img_data) as [[img|]|e]; cbn [bind];
    try discriminate; [|intros [= <-]; reflexivity].
  destruct (negb (is_valid (process_frame self (Some img))));
    [intros [= <-]; reflexivity|].
  destruct (_ >? 1); [intros [= <-]; reflexivity|].
  destruct (face_location (process_frame self (Some img))) as [loc|];
    cbn [bind]; [|discriminate].
  destruct (identify_user self settings (Some img) (Some loc))
    as [[|uid|uid]|]; try (intros [= <-]; reflexivity).
  - destruct (find (fun x => id x =? Z.pos uid) users);
      [discriminate|intros [= <-]; reflexivity].
  - destruct (find (fun x => id x =? Z.neg uid) users);
      [discriminate|intros [= <-]; reflexivity].
Qed.

(** The three ways a request ends: before any write; with [login]
    raising after [last_used] is saved; and in success. *)
Lemma verify_face_login_cases self settings imdecode users rows request now
    today now_time ai_message :
  (exists response,
     Views.success response = false
     /\ Views.verify_face_login self settings imdecode users rows request now
          today now_time ai_message = (response, Views.untouched rows))
  \/
  (exists img_data u,
     Views.has_session request = false
     /\ Views.recognise self settings imdecode users img_data = Ok (inr u)
     /\ Views.verify_face_login self settings imdecode users rows request now
          today now_time ai_message =
        (Views.failure 500 "An error occurred. Please try again.",
         {| Views.table := rows; Views.logged_in := None;
            Views.last_login_ip := None;
            Views.last_used :=
              match face_profile u with Some _ => Some now | None => None end;
            Views.session_action := None |}))
  \/
  (exists img_data u,
     Views.http_method request = "POST"
     /\ Views.FILES_face_image request = Some img_data
     /\ Views.has_session request = true
     /\ Views.recognise self settings imdecode users img_data = Ok (inr u)
     /\ Views.success
          (fst (Views.verify_face_login self settings imdecode users rows
                  request now today now_time ai_message)) = true
     /\ snd (Views.verify_face_login self settings imdecode users rows
               request now today now_time ai_message) =
        {| Views.table :=
             match Views.first_today rows (id u) today with
             | None => (rows ++ [fresh_row u today now_time])%list
             | Some _ => rows
             end;
           Views.logged_in := Some (id u);
           Views.last_login_ip := Views.get_client_ip request;
           Views.last_used :=
             match face_profile u with Some _ => Some now | None => None end;
           Views.session_action :=
             match Views.first_today rows (id u) today with
             | None => Some "mark_in"
             | Some _ => None
             end |}).
Proof.
  unfold Views.verify_face_login.
  destruct (String.eqb (Views.http_method request) "POST") eqn:Hm;
    cbn [negb]; [|left; eexists; split; [|reflexivity]; reflexivity].
  apply String.eqb_eq in Hm.
  destruct (Views.FILES_face_image request) as [img_data|] eqn:Hfile;
    [|left; eexists; split; [|reflexivity]; reflexivity].
  destruct (Views.recognise self settings imdecode users img_data)
    as [[response|u]|e] eqn:Hrec.
  - left. exists response. split; [|reflexivity].
    exact (recognise_failure _ _ _ _ _ _ Hrec).
  - destruct (Views.has_session request) eqn:Hsession; cbn [negb].
    + right. right. exists img_data, u.
      repeat (split; [first [assumption|reflexivity]|]).
      cbn [snd andb].
      destruct (Views.first_today rows (id u) today); reflexivity.
    + right. left. exists img_data, u.
      repeat (split; [first [assumption|reflexivity]|]). reflexivity.
  - left. eexists. split; [|reflexivity]. reflexivity.
Qed.

(** X21: a face login succeeds only for a POST whose image decodes to a frame
    that the validator accepts and in which the recognizer, given the
    accepted box, identifies a user id other than 0 borne by a user of the
    table; that user is the one logged in, and after the request the
    attendance table has a row for that user and day. *)
Theorem face_login_success_means_identified self settings imdecode users
    rows request now today now_time ai_message :
  Views.success
    (fst (Views.verify_face_login self settings imdecode users rows request
            now today now_time ai_message)) = true ->
  exists img_data img b u,
    Views.http_method request = "POST"
    /\ Views.FILES_face_image request = Some img_data
    /\ imdecode img_data = Ok (Some img)
    /\ process_frame self (Some img) = accepted b
    /\ identify_user self settings (Some img) (Some b) = Some (id u)
    /\ identify_user self settings (Some img) None = Some (id u)
    /\ id u <> 0
    /\ In u users
    /\ Views.logged_in
         (snd (Views.verify_face_login self settings imdecode users rows
                 request now today now_time ai_message)) = Some (id u)
    /\ exists r,
         In r (Views.table
                 (snd (Views.verify_face_login self settings imdecode users
                         rows request now today now_time ai_message)))
         /\ user r = id u /\ date r = today.
Proof.
  intros Hsuccess.
  destruct (verify_face_login_cases self settings imdecode users rows
              request now today now_time ai_message)
    as [(response & Hfail & Hrun)|
        [(img_data & u & _ & _ & Hrun)|
         (img_data & u & Hm & Hfile & _ & Hrec & _ & Heff)]].
  { rewrite Hrun in Hsuccess. cbn [fst] in Hsuccess.
    rewrite Hfail in Hsuccess. discriminate. }
  { rewrite Hrun in Hsuccess. discriminate. }
  destruct (recognise_user _ _ _ _ _ _ Hrec)
    as (img & b & Hdec & Hpf & Hid & Hnz & Hin).
  exists img_data, img, b, u.
  repeat (split; [assumption|]).
  split.
  { rewrite identify_user_eq in Hid |- *. unfold located_embedding in *.
    rewrite Hpf. exact Hid. }
  repeat (split; [assumption|]).
  rewrite Heff. cbn [Views.logged_in Views.table]. split; [reflexivity|].
  destruct (Views.first_today rows (id u) today) as [[i r]|] eqn:Hfirst.
  - apply first_today_some in Hfirst. destruct Hfirst as [Hnth Hsame].
    exists r. split; [exact (nth_error_In _ _ Hnth)|].
    unfold Views.same_day in Hsame. apply andb_true_iff in Hsame.
    rewrite !Z.eqb_eq in Hsame. exact Hsame.
  - exists (fresh_row u today now_time).
    split; [apply in_or_app; right; left; reflexivity|].
    split; reflexivity.
Qed.

(** X22: a face login that does not succeed logs nobody in and leaves the
    attendance table, the last login address and the session as they
    were. When the request carries a session it writes nothing at all;
    when it carries none, [last_used] of the recognised user's face
    profile is already saved by the time [login] raises, and the answer
    is then the response of status 500. *)
Theorem face_login_failure_writes_little self settings imdecode users rows
    request now today now_time ai_message :
  Views.success
    (fst (Views.verify_face_login self settings imdecode users rows request
            now today now_time ai_message)) = false ->
  Views.table
    (snd (Views.verify_face_login self settings imdecode users rows request
            now today now_time ai_message)) = rows
  /\ Views.logged_in
       (snd (Views.verify_face_login self settings imdecode users rows
               request now today now_time ai_message)) = None
  /\ Views.last_login_ip
       (snd (Views.verify_face_login self settings imdecode users rows
               request now today now_time ai_message)) = None
  /\ Views.session_action
       (snd (Views.verify_face_login self settings imdecode users rows
               request now today now_time ai_message)) = None
  /\ (Views.has_session request = true ->
      snd (Views.verify_face_login self settings imdecode users rows
             request now today now_time ai_message) = Views.untouched rows)
  /\ (Views.last_used
        (snd (Views.verify_face_login self settings imdecode users rows
                request now today now_time ai_message)) <> None ->
      Views.last_used
        (snd (Views.verify_face_login self settings imdecode users rows
                request now today now_time ai_message)) = Some now
      /\ Views.http_status
           (fst (Views.verify_face_login self settings imdecode users rows
                   request now today now_time ai_message)) = 500).
Proof.
  intros Hfail.
  destruct (verify_face_login_cases self settings imdecode users rows
              request now today now_time ai_message)
    as [(response & _ & ->)|
        [(img_data & u & Hsession & _ & ->)|
         (_ & _ & _ & _ & _ & _ & Hok & _)]];
    cbn [fst snd Views.untouched Views.table Views.logged_in
         Views.last_login_ip Views.session_action Views.last_used
         Views.failure Views.http_status].
  - do 4 (split; [reflexivity|]). split; [reflexivity|].
    intros H. contradiction H. reflexivity.
  - do 4 (split; [reflexivity|]).
    split; [rewrite Hsession; discriminate|].
    destruct (face_profile u); intros H;
      [split; reflexivity|contradiction H; reflexivity].
  - rewrite Hok in Hfail. discriminate.
Qed.

(** X23: a face login keeps the attendance table at one row per user and day,
    and changes no row that was there. *)
Theorem face_login_one_per_day self settings imdecode users rows request
    now today now_time ai_message :
  one_per_day rows ->
  one_per_day
    (Views.table
       (snd (Views.verify_face_login self settings imdecode users rows
               request now today now_time ai_message)))
  /\ exists added,
       Views.table
         (snd (Views.verify_face_login self settings imdecode users rows
                 request now today now_time ai_message))
       = (rows ++ added)%list
       /\ (List.length added <= 1)%nat.
Proof.
  intros Hone.
  assert (Hsame : one_per_day rows
                  /\ exists added, rows = (rows ++ added)%list
                                   /\ (List.length added <= 1)%nat).
  { split; [exact Hone|]. exists []. rewrite app_nil_r.
    split; [reflexivity|cbn; lia]. }
  destruct (verify_face_login_cases self settings imdecode users rows
              request now today now_time ai_message)
    as [(response & _ & ->)|
        [(img_data & u & _ & _ & ->)|
         (_ & u & _ & _ & _ & _ & _ & ->)]];
    cbn [snd Views.untouched Views.table]; try exact Hsame.
  destruct (Views.first_today rows (id u) today) as [[i r]|] eqn:Hfirst;
    [exact Hsame|].
  split; [|eexists [_]; split; [reflexivity|cbn; lia]].
  unfold one_per_day. rewrite map_app. cbn [map user date].
  apply nodup_snoc; [exact Hone|].
  intros Hin. apply in_map_iff in Hin. destruct Hin as (r & Hkey & Hin).
  pose proof (proj1 (first_today_none _ _ _) Hfirst r Hin) as Hno.
  apply same_day_key in Hkey. rewrite Hkey in Hno. discriminate.
Qed.

End FaceLoginProperties.

(** ** Properties of the crop *)

Section CropProperties.

Context {fmt : FloatFormat} {blas : Blas}.

Lemma binary_round_aux_not_negative mx ex lx :
  not_negative (binary_round_aux prec emax false mx ex lx).
Proof.
  unfold binary_round_aux.
  destruct (shr_fexp prec emax mx ex lx) as [mrs' e'].
  destruct (shr_fexp prec emax _ e' loc_Exact) as [mrs'' e''].
  destruct (shr_m mrs''); cbn [not_negative]; [reflexivity| |exact I].
  destruct (e'' <=? emax - prec); reflexivity.
Qed.

Lemma of_int_not_negative (n : Z) : 0 <= n -> not_negative (of_int n).
Proof.
  intros Hn. unfold of_int, binary_normalize.
  destruct n as [|m|m]; [reflexivity| |lia].
  unfold binary_round.
  destruct (shl_align m 0 _) as [mz ez].
  apply binary_round_aux_not_negative.
Qed.

Lemma fdiv_not_negative (x y : float) :
  not_negative x -> not_negative y -> not_negative (fdiv x y).
Proof.
  unfold fdiv, SFdiv.
  destruct x as [sx|sx| |sx mx ex], y as [sy|sy| |sy my ey];
    cbn [not_negative]; intros Hx Hy; subst; try reflexivity; try exact I.
  destruct (SFdiv_core_binary prec emax (Z.pos mx) ex (Z.pos my) ey)
    as [[mz ez] lz].
  apply binary_round_aux_not_negative.
Qed.

Lemma fmul_not_negative (x y : float) :
  not_negative x -> not_negative y -> not_negative (fmul x y).
Proof.
  unfold fmul, SFmul.
  destruct x as [sx|sx| |sx mx ex], y as [sy|sy| |sy my ey];
    cbn [not_negative]; intros Hx Hy; subst; try reflexivity; try exact I.
  apply binary_round_aux_not_negative.
Qed.

Lemma py_int_not_negative (x : float) (n : Z) :
  not_negative x -> py_int x = Ok n -> 0 <= n.
Proof.
  destruct x as [sx|sx| |sx mx ex]; cbn [not_negative py_int];
    intros Hx Hn; try discriminate.
  - injection Hn as <-. lia.
  - subst sx. injection Hn as <-.
    destruct ex as [|p|p]; [lia| |].
    + change (0 <= Z.shiftl (Z.pos mx) (Z.pos p)).
      apply Z.shiftl_nonneg. lia.
    + change (0 <= Z.shiftr (Z.pos mx) (Z.pos p)).
      apply Z.shiftr_nonneg. lia.
Qed.

Lemma float_of_int_not_negative (n : Z) (x : float) :
  0 <= n -> float_of_int n = Ok x -> not_negative x.
Proof.
  intros Hn. unfold float_of_int.
  pose proof (of_int_not_negative n Hn) as Hsign.
  destruct (of_int n); intros Hx; try discriminate;
    injection Hx as <-; exact Hsign.
Qed.

Lemma crop_window_inv img b w :
  crop_window img b = Ok w ->
  exists a1 b1 a2 b2 width padding,
    py_int (x1 b) = Ok a1 /\ py_int (y1 b) = Ok b1
    /\ py_int (x2 b) = Ok a2 /\ py_int (y2 b) = Ok b2
    /\ float_of_int (a2 - a1) = Ok width
    /\ py_int (fmul width lit_0_1) = Ok padding
    /\ w = {| left := Z.max 0 (a1 - padding);
              top := Z.max 0 (b1 - padding);
              right := Z.min (shape1 img) (a2 + padding);
              bottom := Z.min (shape0 img) (b2 + padding) |}.
Proof.
  unfold crop_window.
  destruct (py_int (x1 b)) as [a1|] eqn:Ha1; cbn [bind]; [|discriminate].
  destruct (py_int (y1 b)) as [b1|] eqn:Hb1; cbn [bind]; [|discriminate].
  destruct (py_int (x2 b)) as [a2|] eqn:Ha2; cbn [bind]; [|discriminate].
  destruct (py_int (y2 b)) as [b2|] eqn:Hb2; cbn [bind]; [|discriminate].
  destruct (float_of_int (a2 - a1)) as [width|] eqn:Hwidth; cbn [bind];
    [|discriminate].
  destruct (py_int (fmul width lit_0_1)) as [padding|] eqn:Hpad;
    cbn [bind]; [|discriminate].
  intros [= <-]. exists a1, b1, a2, b2, width, padding.
  repeat split; assumption.
Qed.

Lemma padding_not_negative a1 a2 width padding :
  a1 <= a2 ->
  float_of_int (a2 - a1) = Ok width ->
  py_int (fmul width lit_0_1) = Ok padding ->
  0 <= padding.
Proof.
  intros Hle Hwidth Hpad.
  apply (py_int_not_negative (fmul width lit_0_1)); [|exact Hpad].
  apply fmul_not_negative.
  - apply (float_of_int_not_negative (a2 - a1)); [lia|exact Hwidth].
  - apply fdiv_not_negative; apply of_int_not_negative; lia.
Qed.

(** X24: the crop window never reaches above or left of the frame's origin nor
    beyond its last row and column; and for a box whose right edge is not
    left of its left edge the padding is not negative, so that the window
    covers the box clipped to the frame. *)
Theorem crop_window_covers_box img b w :
  crop_window img b = Ok w ->
  exists a1 b1 a2 b2,
    py_int (x1 b) = Ok a1 /\ py_int (y1 b) = Ok b1
    /\ py_int (x2 b) = Ok a2 /\ py_int (y2 b) = Ok b2
    /\ 0 <= left w /\ 0 <= top w
    /\ right w <= shape1 img /\ bottom w <= shape0 img
    /\ (a1 <= a2 ->
        left w <= Z.max 0 a1 /\ top w <= Z.max 0 b1
        /\ Z.min (shape1 img) a2 <= right w
        /\ Z.min (shape0 img) b2 <= bottom w).
Proof.
  intros Hcrop.
  destruct (crop_window_inv img b w Hcrop)
    as (a1 & b1 & a2 & b2 & width & padding & Ha1 & Hb1 & Ha2 & Hb2
        & Hwidth & Hpad & ->).
  exists a1, b1, a2, b2. cbn [left top right bottom].
  repeat (split; [first [assumption|lia]|]).
  intros Hle.
  pose proof (padding_not_negative a1 a2 width padding Hle Hwidth Hpad).
  lia.
Qed.

(** X25: when the coordinates of the box, truncated to integers as
    [map(int, box)] does, satisfy [0 <= int(x1) < int(x2) <= frame.shape[1]]
    and [0 <= int(y1) < int(y2) <= frame.shape[0]], the crop is not empty:
    the network is run on it and [embed_crop] returns what the network
    returns. The bounds are on the truncated coordinates: a box narrower
    than a pixel can truncate to an empty span (see
    [sub_pixel_box_gives_no_embedding]). *)
Theorem crop_of_inner_box_is_not_empty net img b w a1 b1 a2 b2 :
  crop_window img b = Ok w ->
  py_int (x1 b) = Ok a1 -> py_int (y1 b) = Ok b1 ->
  py_int (x2 b) = Ok a2 -> py_int (y2 b) = Ok b2 ->
  0 <= a1 < a2 -> a2 <= shape1 img ->
  0 <= b1 < b2 -> b2 <= shape0 img ->
  0 < crop_size img w
  /\ embed_crop net img b = (e <- net img w ;; Ok (Some e)).
Proof.
  intros Hcrop Ha1 Hb1 Ha2 Hb2 Hx Hw Hy Hh.
  destruct (crop_window_inv img b w Hcrop)
    as (a1' & b1' & a2' & b2' & width & padding & Ha1' & Hb1' & Ha2' & Hb2'
        & Hwidth & Hpad & Hwin).
  rewrite Ha1 in Ha1'. rewrite Hb1 in Hb1'. rewrite Ha2 in Ha2'.
  rewrite Hb2 in Hb2'.
  injection Ha1' as <-. injection Hb1' as <-. injection Ha2' as <-.
  injection Hb2' as <-.
  assert (Hp : 0 <= padding).
  { apply (padding_not_negative a1 a2 width padding); [lia|assumption..]. }
  assert (Hsize : 0 < crop_size img w).
  { subst w. unfold crop_size, slice_len, slice_bound.
    cbn [left top right bottom].
    destruct (Z.ltb_spec (Z.min (shape0 img) (b2 + padding)) 0);
      destruct (Z.ltb_spec (Z.max 0 (b1 - padding)) 0);
      destruct (Z.ltb_spec (Z.min (shape1 img) (a2 + padding)) 0);
      destruct (Z.ltb_spec (Z.max 0 (a1 - padding)) 0); try lia.
    apply Z.mul_pos_pos; [apply Z.mul_pos_pos|]; lia. }
  split; [exact Hsize|].
  unfold embed_crop. rewrite Hcrop. cbn [bind].
  destruct (Z.eqb_spec (crop_size img w) 0) as [Hz|_]; [lia|reflexivity].
Qed.

(** X26: a box with a coordinate that is NaN or infinite yields no embedding,
    and so no match, when the recognizer crops as the source does. *)
Theorem non_finite_box_gives_no_embedding self net settings uid f b :
  resnet self = embed_crop net ->
  is_finite (x1 b) && is_finite (y1 b) && is_finite (x2 b)
  && is_finite (y2 b) = false ->
  get_face_embedding self f b = None
  /\ identify_user self settings f (Some b) = None
  /\ verify_user_face self settings uid f (Some b) = false.
Proof.
  intros Hres Hbad.
  assert (Hcrop : forall img, exists e, embed_crop net img b = Raise e).
  { intros img. unfold embed_crop, crop_window.
    destruct (x1 b) as [s1|s1| |s1 m1 e1]; cbn [py_int bind];
      try (eexists; reflexivity);
      destruct (y1 b) as [s2|s2| |s2 m2 e2]; cbn [py_int bind];
      try (eexists; reflexivity);
      destruct (x2 b) as [s3|s3| |s3 m3 e3]; cbn [py_int bind];
      try (eexists; reflexivity);
      destruct (y2 b) as [s4|s4| |s4 m4 e4]; cbn [py_int bind];
      try (eexists; reflexivity);
      cbn [is_finite andb] in Hbad; discriminate. }
  assert (Hnone : get_face_embedding self f b = None).
  { unfold get_face_embedding. destruct f as [img|]; [|reflexivity].
    destruct (size img =? 0); [reflexivity|].
    rewrite Hres. destruct (Hcrop img) as [e ->]. reflexivity. }
  split; [exact Hnone|]. split.
  - rewrite identify_user_eq. unfold located_embedding. rewrite Hnone.
    destruct (known_faces self); reflexivity.
  - rewrite verify_user_face_eq. unfold located_embedding. rewrite Hnone.
    destruct (dict_get (known_faces self) uid); reflexivity.
Qed.

End CropProperties.

(** ** Further concrete instances *)

Section MoreInstances.

#[local] Existing Instance binary64.
#[local] Existing Instance blas64.
Import Models Demo Fixtures.

Ltac by_evaluation := vm_compute; reflexivity.

Lemma detect_faces_above_floor_witness :
  In left_face (detect_faces solo_cam (Some vga))
  /\ exists img boxes_probs p,
       Some vga = Some img /\ size img <> 0
       /\ mtcnn solo_cam img = Ok (Some boxes_probs)
       /\ In (left_face, p) boxes_probs
       /\ fgt p lit_0_95 = true.
Proof.
  assert (Hin : In left_face (detect_faces solo_cam (Some vga)))
    by (vm_compute; left; reflexivity).
  split; [exact Hin|].
  exact (detect_faces_above_floor solo_cam (Some vga) left_face Hin).
Defined.

Lemma detector_failure_reads_as_no_face_witness :
  size vga <> 0
  /\ (mtcnn blind_cam vga = Ok None
      \/ exists e, mtcnn blind_cam vga = Raise e)
  /\ process_frame blind_cam (Some vga) =
     rejected "No faces detected. Please ensure your face is visible and well-lit"
  /\ identify_user blind_cam defaults (Some vga) None = None
  /\ verify_user_face blind_cam defaults 7 (Some vga) None = false.
Proof.
  assert (Hsize : size vga <> 0) by (vm_compute; discriminate).
  assert (Hfail : mtcnn blind_cam vga = Ok None
                  \/ exists e, mtcnn blind_cam vga = Raise e)
    by (right; eexists; reflexivity).
  split; [exact Hsize|]. split; [exact Hfail|].
  exact (detector_failure_reads_as_no_face blind_cam defaults 7 vga Hsize
           Hfail).
Defined.

Lemma process_frame_valid_iff_witness :
  is_valid (process_frame solo_cam (Some vga)) = true
  /\ exists img b,
       Some vga = Some img /\ size img <> 0
       /\ detect_faces solo_cam (Some vga) = [b]
       /\ too_short img b = false /\ too_narrow img b = false
       /\ face_location (process_frame solo_cam (Some vga)) = Some b.
Proof.
  assert (Hvalid : is_valid (process_frame solo_cam (Some vga)) = true)
    by by_evaluation.
  split; [exact Hvalid|].
  exact (proj1 (process_frame_valid_iff solo_cam (Some vga)) Hvalid).
Defined.

Lemma empty_frame_never_matches_witness :
  frame_empty None = true
  /\ identify_user solo_cam defaults None (Some left_face) = None
  /\ verify_user_face solo_cam defaults 7 None (Some left_face) = false.
Proof.
  split; [reflexivity|].
  apply (empty_frame_never_matches solo_cam defaults 7 None
           (Some left_face)).
  reflexivity.
Defined.

Lemma dimension_mismatch_disables_matching_witness :
  located_embedding mixed_cam (Some vga) None = Ok (Some enrolled)
  /\ List.length [of_int 1; of_int 0; of_int 0] <> List.length enrolled
  /\ In (9, {| encoding := [of_int 1; of_int 0; of_int 0];
               entry_user_id := 9 |}) (known_faces mixed_cam)
  /\ identify_user mixed_cam defaults (Some vga) None = None.
Proof.
  assert (Hq : located_embedding mixed_cam (Some vga) None
               = Ok (Some enrolled)) by by_evaluation.
  assert (Hlen : List.length [of_int 1; of_int 0; of_int 0]
                 <> List.length enrolled) by (cbn; lia).
  assert (Hin : In (9, {| encoding := [of_int 1; of_int 0; of_int 0];
                          entry_user_id := 9 |}) (known_faces mixed_cam))
    by (right; left; reflexivity).
  split; [exact Hq|]. split; [exact Hlen|]. split; [exact Hin|].
  exact (proj1 (dimension_mismatch_disables_matching mixed_cam defaults
                  (Some vga) None enrolled 9
                  {| encoding := [of_int 1; of_int 0; of_int 0];
                     entry_user_id := 9 |} Hq Hlen) Hin).
Defined.

Lemma identify_user_first_maximum_witness :
  identify_user twin_cam defaults (Some vga) None = Some 7
  /\ exists query pre data post s,
       located_embedding twin_cam (Some vga) None = Ok (Some query)
       /\ known_faces twin_cam = (pre ++ (7, data) :: post)%list
       /\ np_dot query (encoding data) = Ok s
       /\ (forall v d s',
             In (v, d) pre -> np_dot query (encoding d) = Ok s' ->
             feq s' s = false)
       /\ unsurpassed query (known_faces twin_cam) s.
Proof.
  assert (Hid : identify_user twin_cam defaults (Some vga) None = Some 7)
    by by_evaluation.
  split; [exact Hid|].
  exact (identify_user_first_maximum twin_cam defaults (Some vga) None 7
           Hid).
Defined.

Lemma identify_user_complete_witness :
  located_embedding solo_cam (Some vga) None = Ok (Some enrolled)
  /\ (forall v d, In (v, d) (known_faces solo_cam) ->
                  List.length (encoding d) = List.length enrolled)
  /\ In (7, {| encoding := enrolled; entry_user_id := 7 |})
        (known_faces solo_cam)
  /\ np_dot enrolled enrolled = Ok (of_int 1)
  /\ fgt (of_int 1) (threshold defaults) = true
  /\ fgt (of_int 1) (of_int (-1)) = true
  /\ exists winner,
       identify_user solo_cam defaults (Some vga) None = Some winner.
Proof.
  assert (Hq : located_embedding solo_cam (Some vga) None
               = Ok (Some enrolled)) by by_evaluation.
  assert (Hlen : forall v d, In (v, d) (known_faces solo_cam) ->
                   List.length (encoding d) = List.length enrolled).
  { intros v d [Heq|[]]. injection Heq as _ <-. reflexivity. }
  assert (Hin : In (7, {| encoding := enrolled; entry_user_id := 7 |})
                   (known_faces solo_cam)) by (left; reflexivity).
  assert (Hdot : np_dot enrolled enrolled = Ok (of_int 1)) by by_evaluation.
  assert (Hgt : fgt (of_int 1) (threshold defaults) = true)
    by by_evaluation.
  assert (Hfloor : fgt (of_int 1) (of_int (-1)) = true) by by_evaluation.
  split; [exact Hq|]. split; [exact Hlen|]. split; [exact Hin|].
  split; [exact Hdot|]. split; [exact Hgt|]. split; [exact Hfloor|].
  exact (identify_user_complete solo_cam defaults (Some vga) None enrolled 7
           {| encoding := enrolled; entry_user_id := 7 |} (of_int 1)
           Hq Hlen Hin Hdot Hgt Hfloor).
Defined.

Lemma identified_user_verifies_witness :
  unique_keys (known_faces solo_cam)
  /\ identify_user solo_cam defaults (Some vga) None = Some 7
  /\ verify_user_face solo_cam defaults 7 (Some vga) None = true.
Proof.
  assert (Huniq : unique_keys (known_faces solo_cam)).
  { unfold unique_keys. cbn. constructor; [intros []|constructor]. }
  assert (Hid : identify_user solo_cam defaults (Some vga) None = Some 7)
    by by_evaluation.
  split; [exact Huniq|]. split; [exact Hid|].
  exact (identified_user_verifies solo_cam defaults (Some vga) None 7 Huniq
           Hid).
Defined.

Lemma table_inactive_decodes :
  forall q c, In q table_inactive -> stored q c ->
              exists e, loads c = Ok e.
Proof.
  intros q c [<-|[<-|[<-|[]]]] [Hc _]; cbn in Hc;
    try discriminate; injection Hc as <-; eexists; reflexivity.
Defined.

Lemma table_inactive_one_per_user : NoDup (map user_id table_inactive).
Proof.
  cbn. repeat constructor; cbn; intuition discriminate.
Defined.

Lemma load_known_faces_lookup_witness :
  NoDup (map user_id table_inactive)
  /\ (forall q c, In q table_inactive -> stored q c ->
                  exists e, loads c = Ok e)
  /\ In alice_profile table_inactive
  /\ stored alice_profile good_blob
  /\ loads good_blob = Ok [of_int 3; of_int 4]
  /\ dict_get (known_faces (load_known_faces loads solo_cam table_inactive))
              (user_id alice_profile) =
     Some {| encoding := [of_int 3; of_int 4];
             entry_user_id := user_id alice_profile |}.
Proof.
  assert (Hin : In alice_profile table_inactive) by (left; reflexivity).
  assert (Hst : stored alice_profile good_blob) by (split; reflexivity).
  assert (Hdec : loads good_blob = Ok [of_int 3; of_int 4])
    by by_evaluation.
  split; [exact table_inactive_one_per_user|].
  split; [exact table_inactive_decodes|].
  split; [exact Hin|]. split; [exact Hst|]. split; [exact Hdec|].
  exact (load_known_faces_lookup loads solo_cam table_inactive alice_profile
           good_blob [of_int 3; of_int 4] table_inactive_one_per_user
           table_inactive_decodes Hin Hst Hdec).
Defined.

Lemma determine_attendance_status_cutoff_witness :
  time_valid half_past_nine
  /\ micros half_past_nine <= 34200000000
  /\ Views.determine_attendance_status half_past_nine = "PRESENT".
Proof.
  assert (Hvalid : time_valid half_past_nine)
    by (unfold time_valid; cbn; lia).
  assert (Hle : micros half_past_nine <= 34200000000)
    by (vm_compute; discriminate).
  split; [exact Hvalid|]. split; [exact Hle|].
  exact (proj1 (determine_attendance_status_cutoff half_past_nine Hvalid)
           Hle).
Defined.

Lemma get_client_ip_first_hop_witness :
  Views.HTTP_X_FORWARDED_FOR (request_of "POST" None)
  = Some "203.0.113.7, 10.0.0.1"
  /\ "203.0.113.7, 10.0.0.1" <> ""
  /\ exists ip,
       Views.get_client_ip (request_of "POST" None) = Some ip
       /\ has_comma ip = false
       /\ ("203.0.113.7, 10.0.0.1" = ip
           \/ exists rest, "203.0.113.7, 10.0.0.1" = ip ++ "," ++ rest).
Proof.
  assert (Hne : "203.0.113.7, 10.0.0.1" <> "") by discriminate.
  split; [reflexivity|]. split; [exact Hne|].
  exact (get_client_ip_first_hop (request_of "POST" None)
           "203.0.113.7, 10.0.0.1" eq_refl Hne).
Defined.

Lemma roles_are_consistent_witness :
  Views.is_admin_user alice = true
  /\ is_admin alice = true /\ is_hod alice = false.
Proof.
  split; [reflexivity|].
  exact (proj2 (roles_are_consistent alice) eq_refl).
Defined.

End MoreInstances.

Section ViewInstances.

#[local] Existing Instance binary64.
#[local] Existing Instance blas64.
Import Models Demo Fixtures.

Ltac by_evaluation := vm_compute; reflexivity.

Lemma ledger_one_per_day : one_per_day ledger.
Proof.
  unfold one_per_day. cbn. repeat constructor; cbn; intuition discriminate.
Defined.

Lemma closed_ledger_one_per_day : one_per_day closed_ledger.
Proof.
  unfold one_per_day. cbn. repeat constructor; cbn; intuition discriminate.
Defined.

Lemma process_attendance_one_per_day_witness :
  one_per_day ledger
  /\ one_per_day
       (fst (Views.process_attendance ledger
               (request_of "POST" (Some "mark_in")) 100 morning "Welcome")).
Proof.
  split; [exact ledger_one_per_day|].
  exact (process_attendance_one_per_day ledger
           (request_of "POST" (Some "mark_in")) 100 morning "Welcome"
           ledger_one_per_day).
Defined.

Lemma process_attendance_day_is_final_witness :
  one_per_day closed_ledger
  /\ In {| user := 7; date := 100; time_in := morning;
           time_out := Some evening; status := "PRESENT";
           method := "FACE" |} closed_ledger
  /\ fst (Views.process_attendance closed_ledger
            (request_of "POST" (Some "mark_out")) 100 evening "Bye")
     = closed_ledger.
Proof.
  assert (Hin : In {| user := 7; date := 100; time_in := morning;
                      time_out := Some evening; status := "PRESENT";
                      method := "FACE" |} closed_ledger)
    by (right; right; left; reflexivity).
  split; [exact closed_ledger_one_per_day|]. split; [exact Hin|].
  exact (process_attendance_day_is_final closed_ledger
           (request_of "POST" (Some "mark_out")) 100 evening "Bye" _ evening
           closed_ledger_one_per_day Hin eq_refl eq_refl eq_refl).
Defined.

Lemma mark_page_matches_processing_witness :
  offers_marking
    (Views.mark_attendance ledger (request_of "GET" (Some "mark_in")) 100)
  = true
  /\ fst (Views.process_attendance ledger
            (request_of "POST" (Some "mark_in")) 100 morning "Welcome")
     <> ledger.
Proof.
  assert (Hpage : offers_marking
                    (Views.mark_attendance ledger
                       (request_of "GET" (Some "mark_in")) 100) = true)
    by by_evaluation.
  split; [exact Hpage|].
  exact (proj1 (mark_page_matches_processing ledger
                  (request_of "GET" (Some "mark_in"))
                  (request_of "POST" (Some "mark_in")) 100 morning "Welcome"
                  "mark_in" eq_refl eq_refl eq_refl eq_refl
                  (or_introl eq_refl)) Hpage).
Defined.

Lemma ledger_has_no_row_today :
  forall r, In r ledger -> Views.same_day 7 100 r = false.
Proof. intros r [<-|[<-|[]]]; reflexivity. Defined.

Lemma mark_in_then_mark_out_witness :
  (forall r, In r ledger -> Views.same_day 7 100 r = false)
  /\ fst (Views.process_attendance
            (fst (Views.process_attendance ledger
                    (request_of "POST" (Some "mark_in")) 100 morning
                    "Welcome"))
            (request_of "POST" (Some "mark_out")) 100 evening "Bye")
     = closed_ledger.
Proof.
  split; [exact ledger_has_no_row_today|].
  exact (proj1 (mark_in_then_mark_out ledger
                  (request_of "POST" (Some "mark_in"))
                  (request_of "POST" (Some "mark_out")) 100 morning evening
                  "Welcome" "Bye" ledger_has_no_row_today
                  eq_refl eq_refl eq_refl eq_refl eq_refl)).
Defined.

Lemma view_verification_agrees_witness :
  face_profile alice = Some alice_profile
  /\ stored alice_profile good_blob
  /\ dict_get
       (known_faces (load_known_faces loads solo_cam table_inactive))
       (id alice)
     = Some {| encoding := [of_int 3; of_int 4]; entry_user_id := 1 |}
  /\ loads good_blob = Ok [of_int 3; of_int 4]
  /\ fst (Views.verify_user_face loads
            (load_known_faces loads solo_cam table_inactive) defaults 55
            alice (Some vga))
     = verify_user_face (load_known_faces loads solo_cam table_inactive)
         defaults (id alice) (Some vga) None.
Proof.
  assert (Hst : stored alice_profile good_blob) by (split; reflexivity).
  assert (Hget : dict_get
                   (known_faces
                      (load_known_faces loads solo_cam table_inactive))
                   (id alice)
                 = Some {| encoding := [of_int 3; of_int 4];
                           entry_user_id := 1 |}) by by_evaluation.
  assert (Hdec : loads good_blob = Ok [of_int 3; of_int 4])
    by by_evaluation.
  split; [reflexivity|]. split; [exact Hst|]. split; [exact Hget|].
  split; [exact Hdec|].
  exact (proj1 (view_verification_agrees loads
                  (load_known_faces loads solo_cam table_inactive) defaults
                  55 alice (Some vga) alice_profile good_blob
                  {| encoding := [of_int 3; of_int 4]; entry_user_id := 1 |}
                  eq_refl Hst Hget Hdec)).
Defined.

Lemma view_verification_after_rebuild_witness :
  NoDup (map user_id table_inactive)
  /\ In alice_profile table_inactive
  /\ stored alice_profile good_blob
  /\ fst (Views.verify_user_face loads
            (load_known_faces loads solo_cam table_inactive) defaults 55
            alice (Some vga))
     = verify_user_face (load_known_faces loads solo_cam table_inactive)
         defaults (id alice) (Some vga) None.
Proof.
  assert (Hin : In alice_profile table_inactive) by (left; reflexivity).
  assert (Hst : stored alice_profile good_blob) by (split; reflexivity).
  split; [exact table_inactive_one_per_user|]. split; [exact Hin|].
  split; [exact Hst|].
  exact (view_verification_after_rebuild loads solo_cam defaults 55 alice
           (Some vga) table_inactive alice_profile good_blob
           table_inactive_one_per_user table_inactive_decodes Hin eq_refl
           eq_refl Hst).
Defined.

Lemma face_login_success_means_identified_witness :
  Views.success
    (fst (Views.verify_face_login solo_cam defaults decode_vga [alice; bob]
            ledger (request_of "POST" None) 1234 100 morning "Welcome"))
  = true
  /\ exists img_data img b u,
       Views.http_method (request_of "POST" None) = "POST"
       /\ Views.FILES_face_image (request_of "POST" None) = Some img_data
       /\ decode_vga img_data = Ok (Some img)
       /\ process_frame solo_cam (Some img) = accepted b
       /\ identify_user solo_cam defaults (Some img) (Some b) = Some (id u)
       /\ identify_user solo_cam defaults (Some img) None = Some (id u)
       /\ id u <> 0
       /\ In u [alice; bob]
       /\ Views.logged_in
            (snd (Views.verify_face_login solo_cam defaults decode_vga
                    [alice; bob] ledger (request_of "POST" None) 1234 100
                    morning "Welcome")) = Some (id u)
       /\ exists r,
            In r (Views.table
                    (snd (Views.verify_face_login solo_cam defaults
                            decode_vga [alice; bob] ledger
                            (request_of "POST" None) 1234 100 morning
                            "Welcome")))
            /\ user r = id u /\ date r = 100.
Proof.
  assert (Hok : Views.success
                  (fst (Views.verify_face_login solo_cam defaults decode_vga
                          [alice; bob] ledger (request_of "POST" None) 1234
                          100 morning "Welcome")) = true) by by_evaluation.
  split; [exact Hok|].
  exact (face_login_success_means_identified solo_cam defaults decode_vga
           [alice; bob] ledger (request_of "POST" None) 1234 100 morning
           "Welcome" Hok).
Defined.

Lemma face_login_failure_writes_little_witness :
  Views.success (fst sessionless_login) = false
  /\ Views.last_used (snd sessionless_login) <> None
  /\ Views.table (snd sessionless_login) = ledger
  /\ Views.logged_in (snd sessionless_login) = None
  /\ Views.last_login_ip (snd sessionless_login) = None
  /\ Views.session_action (snd sessionless_login) = None
  /\ Views.last_used (snd sessionless_login) = Some 1234
  /\ Views.http_status (fst sessionless_login) = 500.
Proof.
  assert (Hfail : Views.success (fst sessionless_login) = false)
    by by_evaluation.
  assert (Hused : Views.last_used (snd sessionless_login) <> None)
    by (vm_compute; discriminate).
  destruct (face_login_failure_writes_little solo_cam defaults decode_vga
              [alice; carol] ledger (request_without_session "POST") 1234
              100 morning "Welcome" Hfail)
    as (Htable & Hlogin & Hip & Hsession & _ & Hwritten).
  destruct (Hwritten Hused) as [Hnow Hstatus].
  split; [exact Hfail|]. split; [exact Hused|]. split; [exact Htable|].
  split; [exact Hlogin|]. split; [exact Hip|]. split; [exact Hsession|].
  split; [exact Hnow|exact Hstatus].
Defined.

Lemma face_login_one_per_day_witness :
  one_per_day ledger
  /\ one_per_day
       (Views.table
          (snd (Views.verify_face_login solo_cam defaults decode_vga
                  [alice; bob] ledger (request_of "POST" None) 1234 100
                  morning "Welcome"))).
Proof.
  split; [exact ledger_one_per_day|].
  exact (proj1 (face_login_one_per_day solo_cam defaults decode_vga
                  [alice; bob] ledger (request_of "POST" None) 1234 100
                  morning "Welcome" ledger_one_per_day)).
Defined.

Lemma crop_window_covers_box_witness :
  crop_window vga left_face
  = Ok {| left := 16; top := 76; right := 304; bottom := 424 |}
  /\ exists a1 b1 a2 b2,
       py_int (x1 left_face) = Ok a1 /\ py_int (y1 left_face) = Ok b1
       /\ py_int (x2 left_face) = Ok a2 /\ py_int (y2 left_face) = Ok b2
       /\ 0 <= 16 /\ 0 <= 76 /\ 304 <= shape1 vga /\ 424 <= shape0 vga
       /\ (a1 <= a2 ->
           16 <= Z.max 0 a1 /\ 76 <= Z.max 0 b1
           /\ Z.min (shape1 vga) a2 <= 304
           /\ Z.min (shape0 vga) b2 <= 424).
Proof.
  assert (Hcrop : crop_window vga left_face
                  = Ok {| left := 16; top := 76; right := 304;
                          bottom := 424 |}) by by_evaluation.
  split; [exact Hcrop|].
  exact (crop_window_covers_box vga left_face _ Hcrop).
Defined.

Lemma crop_of_inner_box_is_not_empty_witness :
  crop_window vga left_face
  = Ok {| left := 16; top := 76; right := 304; bottom := 424 |}
  /\ py_int (x1 left_face) = Ok 40 /\ py_int (y1 left_face) = Ok 100
  /\ py_int (x2 left_face) = Ok 280 /\ py_int (y2 left_face) = Ok 400
  /\ 0 < crop_size vga
           {| left := 16; top := 76; right := 304; bottom := 424 |}.
Proof.
  assert (Hcrop : crop_window vga left_face
                  = Ok {| left := 16; top := 76; right := 304;
                          bottom := 424 |}) by by_evaluation.
  assert (Ha1 : py_int (x1 left_face) = Ok 40) by by_evaluation.
  assert (Hb1 : py_int (y1 left_face) = Ok 100) by by_evaluation.
  assert (Ha2 : py_int (x2 left_face) = Ok 280) by by_evaluation.
  assert (Hb2 : py_int (y2 left_face) = Ok 400) by by_evaluation.
  split; [exact Hcrop|]. split; [exact Ha1|]. split; [exact Hb1|].
  split; [exact Ha2|]. split; [exact Hb2|].
  refine (proj1 (crop_of_inner_box_is_not_empty
                   (fun _ _ => Ok [of_int 3; of_int 4]) vga left_face _
                   40 100 280 400 Hcrop Ha1 Hb1 Ha2 Hb2 _ _ _ _));
    cbn; lia.
Defined.

(** A box of positive width inside the frame whose horizontal edges
    truncate to the same column: the crop is empty and there is no
    embedding. *)
Example sub_pixel_box_gives_no_embedding :
  flt (x1 sub_pixel_box) (x2 sub_pixel_box) = true
  /\ py_int (x1 sub_pixel_box) = Ok 40
  /\ py_int (x2 sub_pixel_box) = Ok 40
  /\ crop_window vga sub_pixel_box
     = Ok {| left := 40; top := 100; right := 40; bottom := 400 |}
  /\ crop_size vga {| left := 40; top := 100; right := 40; bottom := 400 |}
     = 0
  /\ get_face_embedding cropping_cam (Some vga) sub_pixel_box = None.
Proof. repeat split; by_evaluation. Qed.

Lemma non_finite_box_gives_no_embedding_witness :
  resnet cropping_cam = embed_crop (fun _ _ => Ok [of_int 3; of_int 4])
  /\ is_finite (x1 nan_box) && is_finite (y1 nan_box)
     && is_finite (x2 nan_box) && is_finite (y2 nan_box) = false
  /\ get_face_embedding cropping_cam (Some vga) nan_box = None
  /\ identify_user cropping_cam defaults (Some vga) (Some nan_box) = None
  /\ verify_user_face cropping_cam defaults 7 (Some vga) (Some nan_box)
     = false.
Proof.
  split; [reflexivity|]. split; [reflexivity|].
  exact (non_finite_box_gives_no_embedding cropping_cam
           (fun _ _ => Ok [of_int 3; of_int 4]) defaults 7 (Some vga)
           nan_box eq_refl eq_refl).
Defined.

End ViewInstances.
